(** * One Night Werewolf Assistant: the HTTP surface of [main.py] and
    [backend/routes.py]

    The program is a FastAPI application: two JSON endpoints declared on a
    router, a static-files mount and a root page.  Its own code is a handful
    of declarations; what a request gets is decided by the framework objects
    those declarations build.  The development therefore has three layers:

    - [Py]: the Python built-ins the code and the framework lean on
      ([str.split], [str.rstrip], [json.dumps], path arithmetic, the disk);
    - [Starlette], [Routing] and [FastAPI]: the framework classes the
      program instantiates ([Route], [Mount], [StaticFiles], the responses,
      the router loop, the exception middleware), as an ASGI application
      reading a scope and producing one response message;
    - [routes] and [main]: the two source files, declaration by declaration.

    Boundaries of the model.  A request is its method and its path, as the
    ASGI scope carries them (percent-decoded, no query string), and carries
    no headers: the answers to conditional requests (304) and to range
    requests (206, 400, 416) are outside the model, as are response headers.
    Patterns are compared with paths as strings, which is what the
    framework's compiled patterns do on paths free of line breaks; the
    statements about arbitrary paths say so where it matters.  The disk is a
    finite map from normalised absolute paths to files and directories,
    without symbolic links, permissions (no 401) or input/output errors, and
    no name on it holds a NUL byte; it may change between two requests but
    not during one.  Binding the listening socket is not modelled: a server
    whose module has loaded is taken to listen.  Of the attributes the
    application's objects change while serving, the cache of the OpenAPI
    schema is left out with the text of the documentation pages. *)

From Stdlib Require Import Ascii String List Bool Arith Lia.
From stdpp Require Import gmap strings.
Import ListNotations.

(** ** Python built-ins *)

Module Py.

(** The double quote, which a string literal of this file cannot hold. *)
Definition dquote : ascii := ascii_of_nat 34.
Definition backslash : ascii := ascii_of_nat 92.

(** [literal s] is [s] with every apostrophe turned into a double quote:
    the way JSON texts are written down below. *)
Fixpoint literal (s : string) : string :=
  match s with
  | EmptyString => EmptyString
  | String c s' =>
      String (if Ascii.eqb c "'"%char then dquote else c) (literal s')
  end.

(** [c in s] *)
Fixpoint contains (c : ascii) (s : string) : bool :=
  match s with
  | EmptyString => false
  | String c' s' => Ascii.eqb c c' || contains c s'
  end.

(** The NUL byte, on which the system calls that take a path raise
    [ValueError], and the line feed. *)
Definition NUL : ascii := ascii_of_nat 0.
Definition LF : ascii := ascii_of_nat 10.

(** [s.removeprefix(p)] where [s.startswith(p)], nothing where not. *)
Fixpoint removeprefix (p s : string) : option string :=
  match p, s with
  | EmptyString, _ => Some s
  | String a p', String b s' =>
      if Ascii.eqb a b then removeprefix p' s' else None
  | String _ _, EmptyString => None
  end.

(** [s.endswith("/")] *)
Fixpoint endswith_slash (s : string) : bool :=
  match s with
  | EmptyString => false
  | String c EmptyString => Ascii.eqb c "/"%char
  | String _ s' => endswith_slash s'
  end.

(** [s.rstrip("/")]: every trailing slash goes. *)
Fixpoint rstrip_slash (s : string) : string :=
  match s with
  | EmptyString => EmptyString
  | String c s' =>
      match rstrip_slash s' with
      | EmptyString => if Ascii.eqb c "/"%char then EmptyString else String c EmptyString
      | r => String c r
      end
  end.

(** [s.split("/")]: never empty, [""] for the empty string. *)
Fixpoint split_slash (s : string) : list string :=
  match s with
  | EmptyString => [EmptyString]
  | String c s' =>
      if Ascii.eqb c "/"%char then EmptyString :: split_slash s'
      else match split_slash s' with
           | w :: ws => String c w :: ws
           | [] => [String c EmptyString]
           end
  end.

(** [sep.join(parts)] *)
Fixpoint join (sep : string) (parts : list string) : string :=
  match parts with
  | [] => EmptyString
  | [p] => p
  | p :: ps => p +:+ sep +:+ join sep ps
  end.

(** *** [json.dumps] on a [dict] from [str] to [str]

    A dict keeps its insertion order, and the order shows in the rendered
    text, so it is an association list. *)
Definition dict := list (string * string).

(** [d[k]], [None] standing for [KeyError]. *)
Fixpoint getitem (d : dict) (k : string) : option string :=
  match d with
  | [] => None
  | (k', v) :: d' => if String.eqb k' k then Some v else getitem d' k
  end.

Definition hexdigit (n : nat) : ascii :=
  if n <? 10 then ascii_of_nat (48 + n) else ascii_of_nat (87 + n).

(** [json.encoder.ESCAPE_DCT] as used with [ensure_ascii=False]. *)
Definition escape_char (c : ascii) : string :=
  let n := nat_of_ascii c in
  if Ascii.eqb c dquote then String backslash (String dquote EmptyString)
  else if Ascii.eqb c backslash then String backslash (String backslash EmptyString)
  else if n =? 8 then String backslash "b"
  else if n =? 9 then String backslash "t"
  else if n =? 10 then String backslash "n"
  else if n =? 12 then String backslash "f"
  else if n =? 13 then String backslash "r"
  else if n <? 32 then
    String backslash ("u00" +:+ String (hexdigit (n / 16)) (String (hexdigit (n mod 16)) EmptyString))
  else String c EmptyString.

Fixpoint escape (s : string) : string :=
  match s with
  | EmptyString => EmptyString
  | String c s' => escape_char c +:+ escape s'
  end.

Definition encode_basestring (s : string) : string :=
  String dquote (escape s) +:+ String dquote EmptyString.

(** [json.dumps(d, ensure_ascii=False, indent=None, separators=(",", ":"))] *)
Definition json_dumps (d : dict) : string :=
  "{" +:+ join "," (map (fun kv => encode_basestring (fst kv) +:+ ":" +:+ encode_basestring (snd kv)) d) +:+ "}".

(** *** Paths and the disk

    A path is the list of its parts below the root, as [pathlib] keeps
    them; [parent] and [joinpath] are [PurePath.parent] and the [/]
    operator with a plain name. *)
Definition parent (p : list string) : list string := removelast p.
Definition joinpath (p : list string) (name : string) : list string := p ++ [name].

(** One turn of the loop of [posixpath.normpath]; [new_comps] is kept last
    part first. *)
Definition norm_step (initial_slashes : bool) (new_comps : list string) (comp : string)
  : list string :=
  if String.eqb comp "" || String.eqb comp "." then new_comps
  else if negb (String.eqb comp "..")
          || (negb initial_slashes && match new_comps with [] => true | _ => false end)
          || match new_comps with top :: _ => String.eqb top ".." | [] => false end
       then comp :: new_comps
       else tl new_comps.

(** [os.path.normpath] of a relative ([initial_slashes = false], where the
    empty result stands for ["."]) or absolute path given by its parts. *)
Definition normpath (initial_slashes : bool) (comps : list string) : list string :=
  rev (fold_left (norm_step initial_slashes) comps []).

(** Without symbolic links [os.path.realpath] of an absolute path is its
    normal form. *)
Definition realpath (p : list string) : list string := normpath true p.

(** [os.path.commonpath([a, b])] *)
Fixpoint commonpath (a b : list string) : list string :=
  match a, b with
  | x :: a', y :: b' => if String.eqb x y then x :: commonpath a' b' else []
  | _, _ => []
  end.

(** The text of an absolute path, for messages. *)
Definition fspath (p : list string) : string := "/" +:+ join "/" p.

Inductive Node : Type :=
| File (content : string)
| Dir.

(** [os.stat]: the kernel resolves the dots of the path it is given. *)
Definition stat (disk : gmap (list string) Node) (p : list string) : option Node :=
  disk !! realpath p.

Definition isdir (disk : gmap (list string) Node) (p : list string) : bool :=
  match stat disk p with Some Dir => true | _ => false end.

Definition isfile (disk : gmap (list string) Node) (p : list string) : bool :=
  match stat disk p with Some (File _) => true | _ => false end.

End Py.

(** ** The framework: Starlette *)

Module Starlette.
Import Py.

(** *** What running code can touch

    The disk, and [config_checked], the attribute of the [StaticFiles]
    instance that [main.py] mounts which the instance sets when it has
    checked its directory.  (The application also caches its OpenAPI
    schema on the first [GET /openapi.json]; that cache goes with the text
    of the page and is not in the model.) *)
Record World : Type := {
  disk : gmap (list string) Node;
  config_checked : bool
}.

Inductive Exception : Type :=
| HTTPException (status_code : nat) (detail : string)
| RuntimeError (msg : string)
| ValueError (msg : string)
| OSError (filename : list string).

Inductive Result (A : Type) : Type :=
| Ok (a : A)
| Raise (e : Exception).
Arguments Ok {A} a.
Arguments Raise {A} e.

(** Python code: it reads and writes the world, and returns or raises. *)
Definition M (A : Type) : Type := World -> Result A * World.

Definition raise {A} (e : Exception) : M A := fun w => (Raise e, w).

#[global] Instance M_ret : MRet M := fun A a w => (Ok a, w).
#[global] Instance M_bind : MBind M := fun A B k m w =>
  match m w with
  | (Ok a, w') => k a w'
  | (Raise e, w') => (Raise e, w')
  end.

(** [if b: m] *)
Definition when (b : bool) (m : M unit) : M unit := if b then m else mret tt.

(** [os.stat(p)], [None] standing for [FileNotFoundError]. *)
Definition os_stat (p : list string) : M (option Node) := fun w => (Ok (stat (disk w) p), w).

(** [open(p, "rb").read()] *)
Definition open_read (p : list string) : M string :=
  fun w => match stat (disk w) p with
           | Some (File content) => (Ok content, w)
           | _ => (Raise (OSError p), w)
           end.

(** [self.config_checked], read and assigned. *)
Definition get_config_checked : M bool := fun w => (Ok (config_checked w), w).
Definition set_config_checked (b : bool) : M unit :=
  fun w => (Ok tt, {| disk := disk w; config_checked := b |}).

(** *** The ASGI scope and the response message *)
Record Scope : Type := {
  method : string;
  path : string;
  root_path : string
}.

(** Pages the framework renders itself; their text is not modelled. *)
Inductive Page : Type := OpenAPISchema | SwaggerUI | SwaggerUIRedirect | ReDoc.

Inductive Body : Type :=
| Bytes (b : string)
| Rendered (page : Page).

(** [http.response.start] and [http.response.body] taken together. *)
Record Message : Type := {
  status : nat;
  body : Body
}.

(** *** Responses

    A [RedirectResponse] keeps of its target URL the path; a [FileResponse]
    its path and the [stat_result] it was given, if any. *)
Inductive Response : Type :=
| JSONResponse (content : dict) (status_code : nat)
| PlainTextResponse (content : string) (status_code : nat)
| PageResponse (page : Page)
| RedirectResponse (url : string)
| FileResponse (path : list string) (stat_result : option Node).

(** [FileResponse.__call__] for a request without [Range] header: a
    response built without [stat_result] looks at the file only now; the
    body is read from the disk when it is sent. *)
Definition FileResponse_call (path : list string) (stat_result : option Node) (scope : Scope)
  : M Message :=
  let send_header_only := String.eqb (method scope) "HEAD" in
  match stat_result with
  | Some _ => mret tt
  | None =>
      found ← os_stat path;
      match found with
      | None => raise (RuntimeError ("File at path " +:+ fspath path +:+ " does not exist."))
      | Some Dir => raise (RuntimeError ("File at path " +:+ fspath path +:+ " is not a file."))
      | Some (File _) => mret tt
      end
  end ;;
  if send_header_only then mret {| status := 200; body := Bytes "" |}
  else content ← open_read path; mret {| status := 200; body := Bytes content |}.

(** [await response(scope, receive, send)] *)
Definition send (r : Response) (scope : Scope) : M Message :=
  match r with
  | JSONResponse content status_code => mret {| status := status_code; body := Bytes (json_dumps content) |}
  | PlainTextResponse content status_code => mret {| status := status_code; body := Bytes content |}
  | PageResponse page => mret {| status := 200; body := Rendered page |}
  | RedirectResponse _ => mret {| status := 307; body := Bytes "" |}
  | FileResponse path stat_result => FileResponse_call path stat_result scope
  end.

(** [http.HTTPStatus(status_code).phrase], the default [detail]. *)
Definition phrase (status_code : nat) : string :=
  match status_code with
  | 401 => "Unauthorized"
  | 404 => "Not Found"
  | 405 => "Method Not Allowed"
  | _ => ""
  end.

(** *** [StaticFiles], with [html=False] and [follow_symlink=False] *)
Record StaticFiles : Type := { directory : list string }.

(** [StaticFiles(directory=...)], [check_dir=True] *)
Definition StaticFiles_init (directory : list string) : M StaticFiles :=
  set_config_checked false ;;
  found ← os_stat directory;
  match found with
  | Some Dir => mret {| directory := directory |}
  | _ => raise (RuntimeError ("Directory '" +:+ fspath directory +:+ "' does not exist"))
  end.

Definition get_route_path (scope : Scope) : string :=
  if String.eqb (root_path scope) "" then path scope
  else match removeprefix (root_path scope) (path scope) with
       | None => path scope
       | Some EmptyString => ""
       | Some (String c _ as rest) => if Ascii.eqb c "/"%char then rest else path scope
       end.

Definition get_path (scope : Scope) : list string :=
  normpath false (split_slash (get_route_path scope)).

(** [os.path.realpath] walks the path it is given with [os.lstat], which
    raises [ValueError] on a name with a NUL byte; the directory, found at
    startup, has none. *)
Definition lookup_path (self : StaticFiles) (path : list string) : M (list string * option Node) :=
  let joined_path := directory self ++ path in
  if existsb (contains NUL) path then raise (ValueError "embedded null byte") else
  let full_path := realpath joined_path in
  let directory := realpath (directory self) in
  if bool_decide (commonpath full_path directory = directory) then
    found ← os_stat full_path;
    match found with
    | Some st => mret (full_path, Some st)
    | None => mret ([], None)
    end
  else mret ([], None).

Definition check_config (self : StaticFiles) : M unit :=
  found ← os_stat (directory self);
  match found with
  | None => raise (RuntimeError ("StaticFiles directory '" +:+ fspath (directory self) +:+ "' does not exist."))
  | Some (File _) => raise (RuntimeError ("StaticFiles path '" +:+ fspath (directory self) +:+ "' is not a directory."))
  | Some Dir => mret tt
  end.

(** [get_response] for a request without conditional headers, on a disk
    without permissions: of what [lookup_path] may raise, the [ValueError]
    is not caught here. *)
Definition get_response (self : StaticFiles) (path : list string) (scope : Scope) : M Response :=
  if negb (String.eqb (method scope) "GET" || String.eqb (method scope) "HEAD") then
    raise (HTTPException 405 (phrase 405))
  else
    found ← lookup_path self path;
    match found with
    | (full_path, Some (File content)) => mret (FileResponse full_path (Some (File content)))
    | _ => raise (HTTPException 404 (phrase 404))
    end.

Definition StaticFiles_call (self : StaticFiles) (scope : Scope) : M Message :=
  checked ← get_config_checked;
  when (negb checked) (check_config self ;; set_config_checked true) ;;
  let path := get_path scope in
  response ← get_response self path scope;
  send response scope.

End Starlette.

(** *** Routing *)

Module Routing.
Import Py Starlette.

Inductive Match : Type := NONE | PARTIAL | FULL.

(** A [Route] of a fixed path (none of the program's paths has a
    parameter) and a [Mount] of a [StaticFiles] application. *)
Inductive BaseRoute : Type :=
| Route (path : string) (methods : list string) (app : Scope -> M Message)
| Mount (path : string) (app : StaticFiles).

Definition route_path_of (r : BaseRoute) : string :=
  match r with Route p _ _ => p | Mount p _ => p end.

Definition allows (methods : list string) (m : string) : bool :=
  existsb (String.eqb m) methods.

(** [route.matches(scope)]: the outcome and the child scope.  A route's
    pattern is its path; a mount's is its path, a slash and anything.  The
    comparison is that of strings: the compiled patterns agree with it on
    every path free of line breaks. *)
Definition matches (r : BaseRoute) (scope : Scope) : Match * Scope :=
  let route_path := get_route_path scope in
  match r with
  | Route p methods _ =>
      if String.eqb route_path p then
        if allows methods (method scope) then (FULL, scope) else (PARTIAL, scope)
      else (NONE, scope)
  | Mount p _ =>
      match removeprefix (p +:+ "/") route_path with
      | Some _ =>
          (FULL, {| method := method scope; path := path scope;
                    root_path := root_path scope +:+ p |})
      | None => (NONE, scope)
      end
  end.

(** [route.handle(scope, receive, send)] *)
Definition handle (r : BaseRoute) (scope : Scope) : M Message :=
  match r with
  | Route _ methods app =>
      if negb (allows methods (method scope)) then raise (HTTPException 405 (phrase 405))
      else app scope
  | Mount _ app => StaticFiles_call app scope
  end.

(** The path [Router.app] tries when nothing matched: with the trailing
    slashes removed, or with one added. *)
Definition redirect_path (p : string) : string :=
  if endswith_slash p then rstrip_slash p else p +:+ "/".

Definition is_none (m : Match) : bool :=
  match m with NONE => true | _ => false end.

(** [Router.app] after its loop over the routes. *)
Definition not_matched (routes : list BaseRoute) (partial : option (BaseRoute * Scope))
    (scope : Scope) : M Message :=
  match partial with
  | Some (route, partial_scope) => handle route partial_scope
  | None =>
      let route_path := get_route_path scope in
      let redirect_scope :=
        {| method := method scope; path := redirect_path (path scope);
           root_path := root_path scope |} in
      if negb (String.eqb route_path "/")
         && existsb (fun route => negb (is_none (fst (matches route redirect_scope)))) routes
      then send (RedirectResponse (path redirect_scope)) scope
      else raise (HTTPException 404 (phrase 404))
  end.

(** The loop of [Router.app]: the first full match handles the request,
    the first partial match is remembered. *)
Fixpoint route_loop (all rest : list BaseRoute) (partial : option (BaseRoute * Scope))
    (scope : Scope) : M Message :=
  match rest with
  | [] => not_matched all partial scope
  | route :: rest' =>
      match matches route scope with
      | (FULL, child_scope) => handle route child_scope
      | (PARTIAL, child_scope) =>
          route_loop all rest'
            (match partial with None => Some (route, child_scope) | Some _ => partial end) scope
      | (NONE, _) => route_loop all rest' partial scope
      end
  end.

Definition Router_app (routes : list BaseRoute) (scope : Scope) : M Message :=
  route_loop routes routes None scope.

(** [Route(path, endpoint, methods=None)] of a function endpoint: [GET],
    and [HEAD] with it. *)
Definition Route_init (path : string) (endpoint : M Response) : BaseRoute :=
  Route path ["GET"; "HEAD"] (fun scope => response ← endpoint; send response scope).

End Routing.

(** ** The framework: FastAPI *)

Module FastAPI.
Import Py Starlette Routing.

(** What a path operation function may return: a plain value (here a
    [dict]) or a ready [Response]. *)
Inductive PyValue : Type :=
| PyDict (d : dict)
| PyResponse (r : Response).

(** The handler FastAPI wraps around an endpoint: a [Response] is passed
    on, anything else becomes the default [JSONResponse] with status 200. *)
Definition get_request_handler (endpoint : M PyValue) : M Response :=
  raw_response ← endpoint;
  match raw_response with
  | PyResponse r => mret r
  | PyDict d => mret (JSONResponse d 200)
  end.

(** [APIRoute]: the methods are those given, no [HEAD] is added. *)
Definition APIRoute (path : string) (endpoint : M PyValue) (methods : list string) : BaseRoute :=
  Route path methods (fun scope => response ← get_request_handler endpoint; send response scope).

Record APIRouter : Type := { router_routes : list BaseRoute }.

Definition APIRouter_init : APIRouter := {| router_routes := [] |}.

(** [@router.get(path)] *)
Definition router_get (self : APIRouter) (path : string) (endpoint : M PyValue) : APIRouter :=
  {| router_routes := router_routes self ++ [APIRoute path endpoint ["GET"]] |}.

Record FastAPI : Type := {
  title : string;
  description : string;
  version : string;
  routes : list BaseRoute
}.

(** [FastAPI.setup]: with the default [openapi_url], [docs_url] and
    [redoc_url] the application starts with its documentation routes. *)
Definition setup : list BaseRoute :=
  [ Route_init "/openapi.json" (mret (PageResponse OpenAPISchema));
    Route_init "/docs" (mret (PageResponse SwaggerUI));
    Route_init "/docs/oauth2-redirect" (mret (PageResponse SwaggerUIRedirect));
    Route_init "/redoc" (mret (PageResponse ReDoc)) ].

(** [FastAPI(title=..., description=..., version=...)] *)
Definition FastAPI_init (title description version : string) : FastAPI :=
  {| title := title; description := description; version := version; routes := setup |}.

Definition with_routes (self : FastAPI) (rs : list BaseRoute) : FastAPI :=
  {| title := title self; description := description self; version := version self;
     routes := rs |}.

(** [app.include_router(router)]: the router's routes are added, in their
    order, after those the application has. *)
Definition include_router (self : FastAPI) (router : APIRouter) : FastAPI :=
  with_routes self (routes self ++ router_routes router).

(** [app.mount(path, app)] *)
Definition mount (self : FastAPI) (path : string) (app : StaticFiles) : FastAPI :=
  with_routes self (routes self ++ [Mount (rstrip_slash path) app]).

(** [@app.get(path)] *)
Definition get (self : FastAPI) (path : string) (endpoint : M PyValue) : FastAPI :=
  with_routes self (routes self ++ [APIRoute path endpoint ["GET"]]).

(** [fastapi.exception_handlers.http_exception_handler] *)
Definition http_exception_handler (status_code : nat) (detail : string) : Response :=
  JSONResponse [("detail", detail)] status_code.

(** [ExceptionMiddleware]: an [HTTPException] becomes its response. *)
Definition ExceptionMiddleware (app : Scope -> M Message) (scope : Scope) : M Message :=
  fun w =>
    match app scope w with
    | (Raise (HTTPException status_code detail), w') =>
        send (http_exception_handler status_code detail) scope w'
    | r => r
    end.

(** [ServerErrorMiddleware]: any other exception is answered with the
    plain 500 response (and then re-raised into the server's log). *)
Definition ServerErrorMiddleware (app : Scope -> M Message) (scope : Scope)
  : World -> Message * World :=
  fun w =>
    match app scope w with
    | (Ok m, w') => (m, w')
    | (Raise _, w') => ({| status := 500; body := Bytes "Internal Server Error" |}, w')
    end.

(** [await app(scope, receive, send)]: the message sent and the world left. *)
Definition call (self : FastAPI) : Scope -> World -> Message * World :=
  ServerErrorMiddleware (ExceptionMiddleware (Router_app (routes self))).

(** *** The server *)
Record Server : Type := {
  application : FastAPI;
  host : string;
  port : Z
}.

(** [uvicorn.run(app, host=..., port=...)], the socket taken to be free:
    binding it, and failing to, is not modelled. *)
Definition uvicorn_run (app : FastAPI) (host : string) (port : Z) : M Server :=
  mret {| application := app; host := host; port := port |}.

(** A request as it reaches the application, at the root of the server;
    it carries no headers. *)
Definition request (method path : string) : Scope :=
  {| method := method; path := path; root_path := "" |}.

(** The server at work: before each request the disk is what the outside
    has made of it; the application's own state carries over. *)
Fixpoint serve (self : FastAPI) (checked : bool)
    (trace : list (gmap (list string) Node * Scope)) : list Message :=
  match trace with
  | [] => []
  | (d, scope) :: trace' =>
      let (m, w) := call self scope {| disk := d; config_checked := checked |} in
      m :: serve self (config_checked w) trace'
  end.

End FastAPI.

(** ** [backend/routes.py] *)

Module routes.
Import Py Starlette FastAPI.

Definition health_check : M PyValue :=
  mret (PyDict [("status", "healthy");
                ("message", "One Night Werewolf Assistant API is running")]).

Definition get_info : M PyValue :=
  mret (PyDict [("app", "One Night Werewolf Assistant");
                ("version", "1.0.0");
                ("description", "A web assistant for playing One Night Werewolf")]).

Definition router : APIRouter :=
  let router := APIRouter_init in
  let router := router_get router "/api/health" health_check in
  let router := router_get router "/api/info" get_info in
  router.

End routes.

(** ** [main.py] *)

Module main.
Import Py Starlette FastAPI.

Section module.
(** Where [main.py] is installed. *)
Variable __file__ : list string.

Definition static_dir : list string :=
  joinpath (joinpath (parent __file__) "frontend") "static".

Definition read_root : M PyValue :=
  let html_file := joinpath (joinpath (parent __file__) "frontend") "index.html" in
  mret (PyResponse (FileResponse html_file None)).

(** The body of the module, top to bottom. *)
Definition app : M FastAPI :=
  let app := FastAPI_init "One Night Werewolf Assistant"
                          "A web assistant for playing One Night Werewolf"
                          "1.0.0" in
  let app := include_router app routes.router in
  static ← StaticFiles_init static_dir;
  let app := mount app "/static" static in
  let app := get app "/" read_root in
  mret app.

(** The program run as a script, [__name__ == "__main__"]: neither the
    arguments nor the environment variables are looked at. *)
Definition __main__ (argv : list string) (environ : dict) : M Server :=
  app ← app;
  uvicorn_run app "0.0.0.0" 8000%Z.

End module.

End main.

(** ** Vocabulary of the statements *)

Import Py Starlette Routing FastAPI.

(** The root HTML file that [read_root] names. *)
Definition root_html (__file__ : list string) : list string :=
  joinpath (joinpath (parent __file__) "frontend") "index.html".

(** The world in which the module is loaded: nothing checked yet. *)
Definition at_startup (d : gmap (list string) Node) : World :=
  {| disk := d; config_checked := false |}.

Definition is_ok {A} (r : Result A) : bool :=
  match r with Ok _ => true | Raise _ => false end.

(** A path part that [normpath] keeps as it is. *)
Definition plain (c : string) : Prop := c <> "" /\ c <> "." /\ c <> "..".

(** A path, or what follows [/static/] in one, without line break, on
    which comparing strings is matching the framework's patterns; and
    without NUL byte, which the file system takes. *)
Definition no_line_break (p : string) : Prop := contains LF p = false.
Definition no_nul (p : string) : Prop := contains NUL p = false.

(** A route whose pattern the path of the request does not fit. *)
Definition misses (scope : Scope) (r : BaseRoute) : Prop :=
  fst (matches r scope) = NONE.

(** The route table of the loaded application, entry by entry. *)
Definition table (__file__ : list string) : list BaseRoute :=
  [ Route_init "/openapi.json" (mret (PageResponse OpenAPISchema));
    Route_init "/docs" (mret (PageResponse SwaggerUI));
    Route_init "/docs/oauth2-redirect" (mret (PageResponse SwaggerUIRedirect));
    Route_init "/redoc" (mret (PageResponse ReDoc));
    APIRoute "/api/health" routes.health_check ["GET"];
    APIRoute "/api/info" routes.get_info ["GET"];
    Mount "/static" {| directory := main.static_dir __file__ |};
    APIRoute "/" (main.read_root __file__) ["GET"] ].

(** The framework's not-found message. *)
Definition not_found_message : Message :=
  {| status := 404; body := Bytes (literal "{'detail':'Not Found'}") |}.

Definition redirect_message : Message :=
  {| status := 307; body := Bytes "" |}.

Definition method_not_allowed_message : Message :=
  {| status := 405; body := Bytes (literal "{'detail':'Method Not Allowed'}") |}.

Definition server_error_message : Message :=
  {| status := 500; body := Bytes "Internal Server Error" |}.

(** The three route handlers of the program. *)
Inductive handler : Type := HealthCheck | GetInfo | ReadRoot.

Definition handler_fn (__file__ : list string) (h : handler) : M PyValue :=
  match h with
  | HealthCheck => routes.health_check
  | GetInfo => routes.get_info
  | ReadRoot => main.read_root __file__
  end.

Definition handler_path (h : handler) : string :=
  match h with
  | HealthCheck => "/api/health"
  | GetInfo => "/api/info"
  | ReadRoot => "/"
  end.

(** Handlers invoked one after the other, each in the world the previous
    one left. *)
Fixpoint invoke_all (__file__ : list string) (hs : list handler) (w : World)
  : list (Result PyValue) * World :=
  match hs with
  | [] => ([], w)
  | h :: hs' =>
      let (r, w') := handler_fn __file__ h w in
      let (rs, w'') := invoke_all __file__ hs' w' in
      (r :: rs, w'')
  end.

(** The two JSON messages, written out. *)
Definition healthy_message : Message :=
  {| status := 200;
     body := Bytes (literal
       "{'status':'healthy','message':'One Night Werewolf Assistant API is running'}") |}.

Definition info_message : Message :=
  {| status := 200;
     body := Bytes (literal
       "{'app':'One Night Werewolf Assistant','version':'1.0.0','description':'A web assistant for playing One Night Werewolf'}") |}.

(** A path that, once resolved, lies in the directory or below it: the test
    [lookup_path] makes before it looks at the disk. *)
Definition below (dir target : list string) : Prop :=
  commonpath (realpath target) (realpath dir) = realpath dir.

(** The state of the application after a run of the server. *)
Fixpoint checked_after (self : FastAPI) (checked : bool)
    (trace : list (gmap (list string) Node * Scope)) : bool :=
  match trace with
  | [] => checked
  | (d, scope) :: trace' =>
      checked_after self
        (config_checked (snd (call self scope {| disk := d; config_checked := checked |})))
        trace'
  end.

(** A route whose handling leaves the world as it was, whatever the
    scope. *)
Definition quiet_route (r : BaseRoute) : Prop :=
  forall scope w, snd (handle r scope w) = w.

(** A concrete installation and three states of its disk. *)
Definition install : list string := ["srv"; "werewolf"; "main.py"].

Definition disk_complete : gmap (list string) Node :=
  <[ ["srv"; "werewolf"; "frontend"; "static"] := Dir ]>
  (<[ ["srv"; "werewolf"; "frontend"; "static"; "app.js"] := File "init();" ]>
  (<[ ["srv"; "werewolf"; "frontend"; "index.html"] := File "<h1>One Night Werewolf</h1>" ]> ∅)).

Definition disk_without_index : gmap (list string) Node :=
  <[ ["srv"; "werewolf"; "frontend"; "static"] := Dir ]> ∅.

Definition disk_empty : gmap (list string) Node := ∅.

(** * Properties *)

(** ** The module once loaded *)

Lemma bind_ok {A B} (m : M A) (k : A -> M B) (w w' : World) (b : B) :
  (m ≫= k) w = (Ok b, w') ->
  exists a w1, m w = (Ok a, w1) /\ k a w1 = (Ok b, w').
Proof.
  unfold mbind, M_bind. destruct (m w) as [[a|e] w1]; intros H.
  - eauto.
  - discriminate.
Qed.

Lemma bind_eq {A B} (m : M A) (k : A -> M B) (w : World) :
  (m ≫= k) w = match m w with
               | (Ok a, w') => k a w'
               | (Raise e, w') => (Raise e, w')
               end.
Proof. reflexivity. Qed.

Lemma StaticFiles_init_ok (dir : list string) (w w' : World) (sf : StaticFiles) :
  StaticFiles_init dir w = (Ok sf, w') ->
  sf = {| directory := dir |} /\ isdir (disk w) dir = true /\
  w' = {| disk := disk w; config_checked := false |}.
Proof.
  unfold StaticFiles_init, isdir, mbind, M_bind, set_config_checked, os_stat; cbn.
  destruct (stat (disk w) dir) as [[c|]|]; cbn; intros H; inversion H; auto.
Qed.

Lemma StaticFiles_init_isdir (dir : list string) (w : World) :
  is_ok (fst (StaticFiles_init dir w)) = isdir (disk w) dir.
Proof.
  unfold StaticFiles_init, isdir, mbind, M_bind, set_config_checked, os_stat; cbn.
  destruct (stat (disk w) dir) as [[c|]|]; reflexivity.
Qed.

(** The application object [main.py] has built when its body has run
    through: the documentation routes, the two API routes, the mount and
    the root route, in this order. *)
Lemma app_loaded (__file__ : list string) (w w' : World) (a : FastAPI) :
  main.app __file__ w = (Ok a, w') ->
  isdir (disk w) (main.static_dir __file__) = true /\
  w' = {| disk := disk w; config_checked := false |} /\
  title a = "One Night Werewolf Assistant" /\
  description a = "A web assistant for playing One Night Werewolf" /\
  version a = "1.0.0" /\
  routes a = setup ++ router_routes routes.router
             ++ [Mount "/static" {| directory := main.static_dir __file__ |};
                 APIRoute "/" (main.read_root __file__) ["GET"]].
Proof.
  unfold main.app. intros H.
  apply bind_ok in H as (sf & w1 & Hsf & H).
  apply StaticFiles_init_ok in Hsf as (-> & Hdir & ->).
  inversion H; subst. repeat split; auto.
Qed.

(** What the server sends at any position of a run is what the application
    answers to that request on the disk of that moment, in some state of
    its own. *)
Lemma serve_lookup (a : FastAPI) (trace : list (gmap (list string) Node * Scope)) :
  forall (checked : bool) (i : nat) (d : gmap (list string) Node) (scope : Scope),
    trace !! i = Some (d, scope) ->
    exists c, serve a checked trace !! i
              = Some (fst (call a scope {| disk := d; config_checked := c |})).
Proof.
  induction trace as [|[d0 s0] trace IH]; intros checked i d scope Hi.
  - destruct i; discriminate.
  - cbn [serve].
    destruct (call a s0 {| disk := d0; config_checked := checked |}) as [m w] eqn:E.
    destruct i as [|i]; cbn in Hi |- *.
    + inversion Hi; subst. exists checked. now rewrite E.
    + eapply IH, Hi.
Qed.

(** Runs the application on a request, the route table being known. *)
Ltac run_app Hroutes :=
  unfold call; rewrite Hroutes;
  cbv -[stat isdir isfile joinpath parent fspath disk config_checked].

(** The answers on the three handler routes, in any world. *)
Lemma call_health (__file__ : list string) (w0 w1 : World) (a : FastAPI) :
  main.app __file__ w0 = (Ok a, w1) ->
  forall w, call a (request "GET" "/api/health") w = (healthy_message, w).
Proof.
  intros loaded w. apply app_loaded in loaded as (_ & _ & _ & _ & _ & Hroutes).
  unfold call. rewrite Hroutes. reflexivity.
Qed.

Lemma call_info (__file__ : list string) (w0 w1 : World) (a : FastAPI) :
  main.app __file__ w0 = (Ok a, w1) ->
  forall w, call a (request "GET" "/api/info") w = (info_message, w).
Proof.
  intros loaded w. apply app_loaded in loaded as (_ & _ & _ & _ & _ & Hroutes).
  unfold call. rewrite Hroutes. reflexivity.
Qed.

Lemma call_root (__file__ : list string) (w0 w1 : World) (a : FastAPI) :
  main.app __file__ w0 = (Ok a, w1) ->
  forall w, call a (request "GET" "/") w
  = (match stat (disk w) (root_html __file__) with
     | Some (File content) => {| status := 200; body := Bytes content |}
     | _ => {| status := 500; body := Bytes "Internal Server Error" |}
     end, w).
Proof.
  intros loaded w. apply app_loaded in loaded as (_ & _ & _ & _ & _ & Hroutes).
  unfold root_html. run_app Hroutes.
  destruct (stat _ _) as [[c|]|] eqn:E; cbv beta iota; rewrite ?E; reflexivity.
Qed.

(** ** The JSON endpoints *)

(** C1. [GET /api/health]: the handler returns its dict and never raises,
    the application answers with status 200 and exactly the text
    [{"status":"healthy","message":"One Night Werewolf Assistant API is running"}],
    leaving the world as it was; and so it does at every position of every
    run of the server, whatever came before. *)
Theorem health_check_always_healthy (__file__ : list string) (w0 w1 : World) (a : FastAPI)
    (loaded : main.app __file__ w0 = (Ok a, w1)) :
  (forall w, routes.health_check w
             = (Ok (PyDict [("status", "healthy");
                            ("message", "One Night Werewolf Assistant API is running")]), w)) /\
  (forall w, call a (request "GET" "/api/health") w = (healthy_message, w)) /\
  (forall checked trace i d,
      trace !! i = Some (d, request "GET" "/api/health") ->
      serve a checked trace !! i = Some healthy_message).
Proof.
  pose proof (call_health _ _ _ _ loaded) as Hcall.
  split; [reflexivity | split; [exact Hcall |]].
  intros checked trace i d Hi.
  destruct (serve_lookup a trace checked i d _ Hi) as [c ->].
  now rewrite Hcall.
Qed.

Lemma health_check_always_healthy_witness :
  exists a w1,
    main.app install (at_startup disk_complete) = (Ok a, w1) /\
    serve a false [(disk_complete, request "GET" "/api/health");
                   (disk_empty, request "POST" "/static/app.js");
                   (disk_empty, request "GET" "/api/health")]
      !! 2 = Some healthy_message.
Proof.
  eexists; eexists; split; [reflexivity |].
  apply (proj2 (proj2 (health_check_always_healthy install (at_startup disk_complete) _ _ eq_refl))
           false _ 2 disk_empty).
  reflexivity.
Defined.

(** C2. [GET /api/info]: the application answers with status 200 and exactly
    the text
    [{"app":"One Night Werewolf Assistant","version":"1.0.0","description":"A web assistant for playing One Night Werewolf"}],
    in every world and at every position of every run of the server: the
    payload does not change while the process lives. *)
Theorem get_info_constant (__file__ : list string) (w0 w1 : World) (a : FastAPI)
    (loaded : main.app __file__ w0 = (Ok a, w1)) :
  (forall w, routes.get_info w
             = (Ok (PyDict [("app", "One Night Werewolf Assistant");
                            ("version", "1.0.0");
                            ("description", "A web assistant for playing One Night Werewolf")]), w)) /\
  (forall w, call a (request "GET" "/api/info") w = (info_message, w)) /\
  (forall checked trace i d,
      trace !! i = Some (d, request "GET" "/api/info") ->
      serve a checked trace !! i = Some info_message).
Proof.
  pose proof (call_info _ _ _ _ loaded) as Hcall.
  repeat split; [exact Hcall |].
  intros checked trace i d Hi.
  destruct (serve_lookup a trace checked i d _ Hi) as [c Hc].
  rewrite Hc, Hcall. reflexivity.
Qed.

Lemma get_info_constant_witness :
  exists a w1,
    main.app install (at_startup disk_without_index) = (Ok a, w1) /\
    serve a false [(disk_empty, request "GET" "/");
                   (disk_complete, request "GET" "/api/info")]
      !! 1 = Some info_message.
Proof.
  eexists; eexists; split; [reflexivity |].
  apply (proj2 (proj2 (get_info_constant install (at_startup disk_without_index) _ _ eq_refl))
           false _ 1 disk_complete).
  reflexivity.
Defined.

(** C10. The three fields returned by [GET /api/info] are, string for
    string, the metadata the application object was constructed with: the
    body of the answer is the JSON text of the dict [get_info] returns, in
    which ["app"] is the title of the application, ["version"] its version,
    ["description"] its description, with the values the source spells
    out. *)
Theorem get_info_is_app_metadata (__file__ : list string) (w0 w1 : World) (a : FastAPI)
    (loaded : main.app __file__ w0 = (Ok a, w1)) :
  exists d : dict,
    (forall w, routes.get_info w = (Ok (PyDict d), w)) /\
    (forall w, call a (request "GET" "/api/info") w
               = ({| status := 200; body := Bytes (json_dumps d) |}, w)) /\
    map fst d = ["app"; "version"; "description"] /\
    getitem d "app" = Some (title a) /\
    getitem d "version" = Some (version a) /\
    getitem d "description" = Some (description a) /\
    title a = "One Night Werewolf Assistant" /\
    version a = "1.0.0" /\
    description a = "A web assistant for playing One Night Werewolf".
Proof.
  pose proof (call_info _ _ _ _ loaded) as Hcall.
  apply app_loaded in loaded as (_ & _ & Ht & Hd & Hv & _).
  eexists. split; [intros w; reflexivity |].
  split; [intros w; rewrite Hcall; reflexivity |].
  rewrite Ht, Hd, Hv. repeat split.
Qed.

Lemma get_info_is_app_metadata_witness :
  exists a w1,
    main.app install (at_startup disk_complete) = (Ok a, w1) /\
    exists d : dict,
      routes.get_info w1 = (Ok (PyDict d), w1) /\ getitem d "app" = Some (title a).
Proof.
  eexists; eexists; split; [reflexivity |].
  destruct (get_info_is_app_metadata install (at_startup disk_complete) _ _ eq_refl)
    as (d & Hd & _ & _ & Happ & _).
  exists d. split; [apply Hd | exact Happ].
Defined.

(** ** Path arithmetic *)

Section Paths.

Lemma norm_step_plain (b : bool) (stack : list string) (c : string) :
  plain c -> norm_step b stack c = c :: stack.
Proof.
  intros (H1 & H2 & H3). unfold norm_step.
  destruct (String.eqb_spec c ""); [contradiction|].
  destruct (String.eqb_spec c "."); [contradiction|].
  destruct (String.eqb_spec c ".."); [contradiction|].
  reflexivity.
Qed.

Lemma norm_step_cases (b : bool) (stack : list string) (c : string) :
  (c = "" \/ c = ".") /\ norm_step b stack c = stack
  \/ c = ".." /\ norm_step b stack c
               = (if (negb b && match stack with [] => true | _ => false end)
                     || match stack with top :: _ => String.eqb top ".." | [] => false end
                  then c :: stack else tl stack)
  \/ plain c /\ norm_step b stack c = c :: stack.
Proof.
  unfold norm_step, plain.
  destruct (String.eqb_spec c ""); [left; auto|].
  destruct (String.eqb_spec c "."); [left; auto|].
  destruct (String.eqb_spec c ".."); [right; left; auto | right; right; auto].
Qed.

Lemma realpath_joinpath (p : list string) (name : string) :
  plain name -> realpath (joinpath p name) = joinpath (realpath p) name.
Proof.
  intros Hn. unfold realpath, normpath, joinpath.
  rewrite fold_left_app. cbn [fold_left].
  rewrite norm_step_plain by assumption. reflexivity.
Qed.

(** The stack of an absolute path only ever holds plain parts. *)
Lemma absolute_stack_plain (comps stack : list string) :
  Forall plain stack -> Forall plain (fold_left (norm_step true) comps stack).
Proof.
  revert stack. induction comps as [|c comps IH]; intros stack Hs; [exact Hs|].
  cbn [fold_left]. apply IH.
  destruct (norm_step_cases true stack c) as [[_ ->]|[[-> ->]|[Hc ->]]].
  - exact Hs.
  - destruct stack as [|top stack]; cbn; [constructor|].
    inversion Hs as [|? ? (_ & _ & Htop) Hs']; subst.
    destruct (String.eqb_spec top ".."); [contradiction | exact Hs'].
  - constructor; assumption.
Qed.

Lemma plain_parts_stay (comps stack : list string) (b : bool) :
  Forall plain comps -> fold_left (norm_step b) comps stack = rev comps ++ stack.
Proof.
  revert stack. induction comps as [|c comps IH]; intros stack Hc; [reflexivity|].
  inversion Hc; subst. cbn [fold_left rev].
  rewrite norm_step_plain, IH by assumption.
  now rewrite <- app_assoc.
Qed.

Lemma realpath_plain (p : list string) : Forall plain (realpath p).
Proof.
  unfold realpath, normpath. apply Forall_rev, absolute_stack_plain. constructor.
Qed.

(** A normal form is its own normal form. *)
Lemma realpath_idempotent (p : list string) : realpath (realpath p) = realpath p.
Proof.
  pose proof (realpath_plain p) as H.
  unfold realpath at 1. unfold normpath.
  rewrite plain_parts_stay by exact H.
  now rewrite app_nil_r, rev_involutive.
Qed.

(** Resolving a relative path first and then below a directory, or all at
    once, comes to the same: the dots left at the head of the relative
    normal form climb the directory just as they would have. *)
Lemma relative_then_absolute (comps rel stack : list string) :
  Forall (fun c => c <> "" /\ c <> ".") rel ->
  fold_left (norm_step true) (rev (fold_left (norm_step false) comps rel)) stack
  = fold_left (norm_step true) comps (fold_left (norm_step true) (rev rel) stack).
Proof.
  revert rel. induction comps as [|c comps IH]; intros rel Hrel; [reflexivity|].
  cbn [fold_left].
  assert (Hstep : Forall (fun c => c <> "" /\ c <> ".") (norm_step false rel c) /\
                  fold_left (norm_step true) (rev (norm_step false rel c)) stack
                  = norm_step true (fold_left (norm_step true) (rev rel) stack) c).
  { destruct (norm_step_cases false rel c) as [[Hc ->]|[[-> ->]|[Hc ->]]].
    - split; [exact Hrel|].
      destruct (norm_step_cases true (fold_left (norm_step true) (rev rel) stack) c)
        as [[_ ->]|[[-> _]|[(H1 & H2 & _) _]]]; [reflexivity| |]; destruct Hc; congruence.
    - destruct rel as [|top rel]; cbn [negb andb orb rev tl].
      + split; [repeat constructor; discriminate | reflexivity].
      + inversion Hrel as [|? ? (Ht1 & Ht2) Hrel']; subst.
        destruct (String.eqb_spec top "..") as [->|Htop].
        * split; [constructor; [split; discriminate | exact Hrel]|].
          cbn [rev]. now rewrite !fold_left_app.
        * split; [exact Hrel'|].
          rewrite fold_left_app. cbn [fold_left].
          rewrite (norm_step_plain true _ top) by (repeat split; assumption).
          unfold norm_step at 2. cbn.
          destruct (String.eqb_spec top ".."); [contradiction | reflexivity].
    - destruct Hc as (H1 & H2 & H3).
      split; [constructor; [split; assumption | exact Hrel]|].
      cbn [rev]. rewrite fold_left_app. cbn [fold_left].
      now rewrite !(norm_step_plain true) by (repeat split; assumption).
  }
  destruct Hstep as [Hinv Heq].
  rewrite IH by exact Hinv. now rewrite Heq.
Qed.

Lemma realpath_normpath (dir comps : list string) :
  realpath (dir ++ normpath false comps) = realpath (dir ++ comps).
Proof.
  unfold realpath, normpath. f_equal.
  rewrite !fold_left_app.
  rewrite relative_then_absolute by constructor. reflexivity.
Qed.

End Paths.

(** ** The root page *)

(** C3, as the code has it.  [GET /], the request carrying no [Range]
    header, is answered from the disk at the moment of the request: with
    status 200 and, byte for byte, the contents of the root HTML file when
    that is a regular file; with the plain 500 response when it is absent
    (or is a directory): [FileResponse] raises a [RuntimeError] then, which
    nothing turns into a 404.  The world is left as it was. *)
Theorem read_root_serves_file_or_500 (__file__ : list string) (w0 w1 : World) (a : FastAPI)
    (loaded : main.app __file__ w0 = (Ok a, w1)) (w : World) :
  (forall content,
      stat (disk w) (root_html __file__) = Some (File content) ->
      call a (request "GET" "/") w = ({| status := 200; body := Bytes content |}, w)) /\
  (isfile (disk w) (root_html __file__) = false ->
   call a (request "GET" "/") w = (server_error_message, w)) /\
  (stat (disk w) (root_html __file__) = None ->
   status (fst (call a (request "GET" "/") w)) = 500).
Proof.
  pose proof (call_root _ _ _ _ loaded w) as Hcall.
  split; [|split].
  - intros content Hfile. now rewrite Hcall, Hfile.
  - unfold isfile. intros Hnone. rewrite Hcall.
    destruct (stat (disk w) (root_html __file__)) as [[content|]|];
      [discriminate | reflexivity | reflexivity].
  - intros Hnone. now rewrite Hcall, Hnone.
Qed.

Lemma read_root_serves_file_or_500_witness :
  exists a w1,
    main.app install (at_startup disk_complete) = (Ok a, w1) /\
    call a (request "GET" "/") w1
    = ({| status := 200; body := Bytes "<h1>One Night Werewolf</h1>" |}, w1).
Proof.
  eexists; eexists; split; [reflexivity |].
  apply (proj1 (read_root_serves_file_or_500 install (at_startup disk_complete) _ _ eq_refl _)).
  reflexivity.
Defined.

(** C3, as the spec has it, fails: on a disk with the static directory but
    no root HTML file the server starts, and [GET /] gets 500, not 404. *)
Lemma read_root_missing_file_is_not_404 :
  stat disk_without_index (root_html install) = None /\
  exists a w1,
    main.app install (at_startup disk_without_index) = (Ok a, w1) /\
    status (fst (call a (request "GET" "/") (at_startup disk_without_index))) = 500 /\
    status (fst (call a (request "GET" "/") (at_startup disk_without_index))) <> 404.
Proof.
  split; [reflexivity |].
  eexists; eexists; split; [reflexivity |].
  split; [reflexivity | discriminate].
Qed.

(** ** Startup *)

Lemma app_is_ok (__file__ : list string) (w : World) :
  is_ok (fst (main.app __file__ w)) = isdir (disk w) (main.static_dir __file__).
Proof.
  transitivity (is_ok (fst (StaticFiles_init (main.static_dir __file__) w))).
  - unfold main.app, mbind, M_bind.
    destruct (StaticFiles_init _ _) as [[sf|e] w']; reflexivity.
  - apply StaticFiles_init_isdir.
Qed.

Lemma root_html_is_not_static_dir (__file__ : list string) :
  realpath (root_html __file__) <> realpath (main.static_dir __file__).
Proof.
  unfold root_html, main.static_dir.
  rewrite !realpath_joinpath by (repeat split; discriminate).
  unfold joinpath. intros H. apply app_inj_tail in H as [_ H]. discriminate.
Qed.

(** C4, as the code has it.  Started as a script, the program fails when
    the static directory is not a directory on the disk: [StaticFiles]
    raises while the module is loaded, and no server is made.  The root HTML
    file is not looked at while the module is loaded: whatever is put at its
    place, or removed from it, loading succeeds or fails alike. *)
Theorem startup_fails_without_static_dir (__file__ : list string) (argv : list string)
    (environ : dict) (d : gmap (list string) Node) :
  (isdir d (main.static_dir __file__) = false ->
   exists msg, fst (main.__main__ __file__ argv environ (at_startup d)) = Raise (RuntimeError msg)) /\
  (forall n : option Node,
      is_ok (fst (main.app __file__
                    (at_startup (partial_alter (fun _ => n) (realpath (root_html __file__)) d))))
      = is_ok (fst (main.app __file__ (at_startup d)))).
Proof.
  split.
  - unfold main.__main__, main.app, StaticFiles_init, isdir, mbind, M_bind,
      set_config_checked, os_stat; cbn.
    destruct (stat d (main.static_dir __file__)) as [[c|]|]; cbn; intros H;
      try discriminate; eauto.
  - intros n. rewrite !app_is_ok. unfold at_startup, isdir, stat. cbn [disk].
    rewrite lookup_partial_alter_ne; [reflexivity | apply root_html_is_not_static_dir].
Qed.

Lemma startup_fails_without_static_dir_witness :
  isdir disk_empty (main.static_dir install) = false /\
  exists msg,
    fst (main.__main__ install [] [] (at_startup disk_empty)) = Raise (RuntimeError msg).
Proof.
  split; [reflexivity |].
  apply (proj1 (startup_fails_without_static_dir install [] [] disk_empty)).
  reflexivity.
Defined.

(** C4, as the spec has it, fails in its second half: without the root HTML
    file, the static directory being there, the program starts and
    listens. *)
Lemma startup_without_root_html_succeeds :
  stat disk_without_index (root_html install) = None /\
  exists server w,
    main.__main__ install [] [] (at_startup disk_without_index) = (Ok server, w).
Proof.
  split; [reflexivity |]. eexists; eexists; reflexivity.
Qed.

(** C7, as the code has it.  Run as a script the program listens on host
    [0.0.0.0] and port [8000] whatever its arguments and environment
    variables are: both are constants of the call to [uvicorn.run], not
    defaults of a setting.  The static directory is [frontend/static] and
    the root HTML file [frontend/index.html] below the directory that holds
    [main.py]: fixed names, relative to where the application is installed. *)
Theorem address_and_locations_are_fixed (__file__ : list string) (argv : list string)
    (environ : dict) (w w' : World) (server : Server)
    (started : main.__main__ __file__ argv environ w = (Ok server, w')) :
  host server = "0.0.0.0" /\ port server = 8000%Z /\
  In (Mount "/static" {| directory := parent __file__ ++ ["frontend"; "static"] |})
     (routes (application server)) /\
  (forall w, main.read_root __file__ w
             = (Ok (PyResponse (FileResponse (parent __file__ ++ ["frontend"; "index.html"]) None)), w)) /\
  (forall argv2 environ2 server2 w2,
      main.__main__ __file__ argv2 environ2 w = (Ok server2, w2) ->
      host server2 = host server /\ port server2 = port server).
Proof.
  assert (Haddr : forall argv environ w w' server,
             main.__main__ __file__ argv environ w = (Ok server, w') ->
             host server = "0.0.0.0" /\ port server = 8000%Z /\
             main.app __file__ w = (Ok (application server), w')).
  { clear. intros argv environ w w' server H. unfold main.__main__ in H.
    apply bind_ok in H as (a & w1 & Ha & H). inversion H; subst. auto. }
  destruct (Haddr _ _ _ _ _ started) as (Hh & Hp & Ha).
  apply app_loaded in Ha as (_ & _ & _ & _ & _ & Hroutes).
  repeat split; try assumption.
  - rewrite Hroutes. unfold main.static_dir, joinpath. rewrite <- app_assoc.
    cbn. auto 10.
  - intros w2. unfold main.read_root, joinpath. now rewrite <- app_assoc.
  - destruct (Haddr _ _ _ _ _ H) as (-> & _ & _). now rewrite Hh.
  - destruct (Haddr _ _ _ _ _ H) as (_ & -> & _). now rewrite Hp.
Qed.

Lemma address_and_locations_are_fixed_witness :
  exists server w',
    main.__main__ install [] [] (at_startup disk_complete) = (Ok server, w') /\
    host server = "0.0.0.0" /\ port server = 8000%Z.
Proof.
  eexists; eexists; split; [reflexivity |].
  pose proof (address_and_locations_are_fixed install [] [] (at_startup disk_complete) _ _ eq_refl)
    as (Hh & Hp & _).
  split; [exact Hh | exact Hp].
Defined.

(** C7, as the spec has it, fails: asked on the command line and through
    the environment for another host and port, the program still listens on
    [0.0.0.0:8000]; and no arguments, environment and disk make it listen
    anywhere else. *)
Lemma host_and_port_are_not_configurable :
  (exists server w',
      main.__main__ install ["--host"; "127.0.0.1"; "--port"; "9000"]
                    [("HOST", "127.0.0.1"); ("PORT", "9000")]
                    (at_startup disk_complete) = (Ok server, w') /\
      host server = "0.0.0.0" /\ port server = 8000%Z) /\
  ~ (exists argv environ d server w',
        main.__main__ install argv environ (at_startup d) = (Ok server, w') /\
        (host server <> "0.0.0.0" \/ port server <> 8000%Z)).
Proof.
  split.
  - eexists; eexists; split; [reflexivity | split; reflexivity].
  - intros (argv & environ & d & server & w' & H & Hne).
    unfold main.__main__ in H. apply bind_ok in H as (a & w1 & _ & H).
    inversion H; subst. cbn in Hne. destruct Hne as [Hne|Hne]; now apply Hne.
Qed.

(** ** The handlers *)

(** C9. Each of the three handlers returns the same value in every world
    and leaves the world as it found it: it neither reads nor writes the
    disk or the application's state.  So any number of invocations, in any
    order, give each handler the value it gives when invoked alone, and
    leave the world untouched.  (The value [read_root] returns is the
    [FileResponse] naming the root HTML file; its bytes are read when the
    framework sends it.)  On the wire, the answers to [GET] on the three
    routes do not depend on the application's state either, only on the
    disk, and leave the world as it was. *)
Theorem handlers_are_pure (__file__ : list string) (w0 w1 : World) (a : FastAPI)
    (loaded : main.app __file__ w0 = (Ok a, w1)) :
  (forall h, exists v, forall w, handler_fn __file__ h w = (Ok v, w)) /\
  (forall hs w,
      snd (invoke_all __file__ hs w) = w /\
      forall i h w', hs !! i = Some h ->
        fst (invoke_all __file__ hs w) !! i = Some (fst (handler_fn __file__ h w'))) /\
  (forall h w w',
      disk w = disk w' ->
      fst (call a (request "GET" (handler_path h)) w)
      = fst (call a (request "GET" (handler_path h)) w') /\
      snd (call a (request "GET" (handler_path h)) w) = w).
Proof.
  assert (Hconst : forall h, exists v, forall w, handler_fn __file__ h w = (Ok v, w)).
  { intros []; eexists; intros w; reflexivity. }
  split; [exact Hconst | split].
  - induction hs as [|h hs IH]; intros w; [split; [reflexivity | intros [] ? ?; discriminate]|].
    cbn [invoke_all]. destruct (Hconst h) as [v Hv]. rewrite Hv.
    destruct (IH w) as [Hw Hi].
    destruct (invoke_all __file__ hs w) as [rs w''] eqn:E. cbn in Hw |- *. subst w''.
    split; [reflexivity|].
    intros [|i] h' w' Hl; cbn in Hl |- *.
    + inversion Hl; subst. now rewrite Hv.
    + now apply Hi.
  - intros h w w' Hd.
    destruct h; cbn [handler_path].
    + now rewrite !(call_health _ _ _ _ loaded).
    + now rewrite !(call_info _ _ _ _ loaded).
    + rewrite !(call_root _ _ _ _ loaded), Hd. split; reflexivity.
Qed.

Lemma handlers_are_pure_witness :
  exists a w1,
    main.app install (at_startup disk_complete) = (Ok a, w1) /\
    fst (invoke_all install [ReadRoot; HealthCheck; ReadRoot] (at_startup disk_empty)) !! 2
    = Some (fst (main.read_root install (at_startup disk_complete))) /\
    fst (call a (request "GET" "/") {| disk := disk_complete; config_checked := true |})
    = fst (call a (request "GET" "/") (at_startup disk_complete)).
Proof.
  eexists; eexists; split; [reflexivity |].
  pose proof (handlers_are_pure install (at_startup disk_complete) _ _ eq_refl)
    as (_ & Hseq & Hwire).
  split.
  - apply (proj2 (Hseq [ReadRoot; HealthCheck; ReadRoot] (at_startup disk_empty))
             2 ReadRoot (at_startup disk_complete)).
    reflexivity.
  - apply (Hwire ReadRoot {| disk := disk_complete; config_checked := true |}
                 (at_startup disk_complete)).
    reflexivity.
Defined.

(** ** The router *)

Section Router.

Variable scope : Scope.

Lemma route_loop_skip (all pre rest : list BaseRoute) (partial : option (BaseRoute * Scope)) :
  Forall (misses scope) pre ->
  route_loop all (pre ++ rest) partial scope = route_loop all rest partial scope.
Proof.
  induction pre as [|r pre IH]; intros Hpre; [reflexivity|].
  inversion Hpre as [|? ? Hr Hpre']; subst.
  cbn [app route_loop]. unfold misses in Hr.
  destruct (matches r scope) as [mt child]. cbn in Hr. subst mt.
  apply IH, Hpre'.
Qed.

(** In a table where one entry alone fits the path, that entry handles the
    request: at once when the method fits too, after the loop when not. *)
Lemma only_hit_handles (pre post : list BaseRoute) (r : BaseRoute) :
  Forall (misses scope) pre -> Forall (misses scope) post -> ~ misses scope r ->
  Router_app (pre ++ r :: post) scope = handle r (snd (matches r scope)).
Proof.
  intros Hpre Hpost Hr. unfold Router_app.
  rewrite route_loop_skip by exact Hpre. cbn [route_loop].
  unfold misses in Hr.
  destruct (matches r scope) as [[| |] child]; cbn in Hr |- *.
  - contradiction.
  - rewrite <- (app_nil_r post), route_loop_skip by exact Hpost. reflexivity.
  - reflexivity.
Qed.

Lemma no_hit_not_matched (rs : list BaseRoute) :
  Forall (misses scope) rs -> Router_app rs scope = not_matched rs None scope.
Proof.
  intros H. unfold Router_app.
  rewrite <- (app_nil_r rs) at 2. now rewrite route_loop_skip.
Qed.

(** Where the first entry that fits stands, given that one entry alone
    fits. *)
Lemma first_hit_is_only_hit (pre post pre' post' : list BaseRoute) (r r' : BaseRoute) :
  pre ++ r :: post = pre' ++ r' :: post' ->
  Forall (misses scope) pre -> Forall (misses scope) post ->
  Forall (misses scope) pre' -> ~ misses scope r' ->
  pre' = pre /\ r' = r /\ post' = post.
Proof.
  intros E Hpre Hpost Hpre' Hr'.
  assert (Hat : (pre ++ r :: post) !! length pre' = Some r')
    by (rewrite E; apply list_lookup_middle; reflexivity).
  destruct (Nat.lt_trichotomy (length pre') (length pre)) as [Hlt|[Heq|Hgt]].
  - rewrite lookup_app_l in Hat by exact Hlt.
    exfalso. apply Hr'. exact (Forall_lookup_1 _ _ _ _ Hpre Hat).
  - symmetry in E. apply app_inj_1 in E as [-> E]; [|exact Heq].
    inversion E; auto.
  - rewrite lookup_app_r in Hat by lia.
    destruct (length pre' - length pre) as [|k] eqn:Ek; [lia|]. cbn in Hat.
    exfalso. apply Hr'. exact (Forall_lookup_1 _ _ _ _ Hpost Hat).
Qed.

End Router.

Lemma removeprefix_Some (p s rest : string) :
  removeprefix p s = Some rest -> s = p +:+ rest.
Proof.
  revert s. induction p as [|a p IH]; intros s H; cbn in H.
  - now inversion H.
  - destruct s as [|b s]; [discriminate|].
    destruct (Ascii.eqb_spec a b); [subst | discriminate].
    change (String b p +:+ rest) with (String b (p +:+ rest)).
    f_equal. now apply IH.
Qed.

Lemma hit_route (m p p0 : string) (ms : list string) (ep : Scope -> M Message) :
  ~ misses (request m p) (Route p0 ms ep) -> p = p0.
Proof.
  unfold misses. cbn.
  destruct (String.eqb_spec p p0); [auto | intros H; now destruct H].
Qed.

Lemma hit_mount (m p : string) (sf : StaticFiles) :
  ~ misses (request m p) (Mount "/static" sf) -> exists rest, p = "/static/" +:+ rest.
Proof.
  unfold misses. cbn.
  change ("/static" +:+ "/") with "/static/".
  destruct (removeprefix "/static/" p) as [rest|] eqn:E; [|intros H; now destruct H].
  intros _. exists rest. now apply removeprefix_Some.
Qed.

(** ** The route table of the program *)

Lemma routes_loaded (__file__ : list string) (w0 w1 : World) (a : FastAPI) :
  main.app __file__ w0 = (Ok a, w1) -> routes a = table __file__.
Proof.
  intros loaded. apply app_loaded in loaded as (_ & _ & _ & _ & _ & ->). reflexivity.
Qed.

Lemma route_misses (m p p0 : string) (ms : list string) (ep : Scope -> M Message) :
  p <> p0 -> misses (request m p) (Route p0 ms ep).
Proof.
  intros H. unfold misses. cbn. now destruct (String.eqb_spec p p0).
Qed.

Lemma route_hits (m p : string) (ms : list string) (ep : Scope -> M Message) :
  ~ misses (request m p) (Route p ms ep).
Proof.
  unfold misses. cbn. rewrite String.eqb_refl. now destruct (allows ms m).
Qed.

Lemma mount_misses (m p : string) (sf : StaticFiles) :
  removeprefix "/static/" p = None -> misses (request m p) (Mount "/static" sf).
Proof.
  intros H. unfold misses. cbn. change ("/static" +:+ "/") with "/static/". now rewrite H.
Qed.

Lemma mount_hits (m rest : string) (sf : StaticFiles) :
  ~ misses (request m ("/static/" +:+ rest)) (Mount "/static" sf).
Proof.
  unfold misses. vm_compute. discriminate.
Qed.

Ltac solve_miss :=
  first [ apply route_misses; first [assumption | vm_compute; discriminate]
        | apply mount_misses; first [assumption | reflexivity] ].

Ltac all_miss := repeat (constructor; [solve_miss|]); constructor.

Ltac hit_at k :=
  match goal with
  | |- _ \/ exists pre r post, table ?f = _ /\ _ =>
      right;
      exists (firstn k (table f)), (nth k (table f) (Mount "" {| directory := [] |})),
             (skipn (S k) (table f));
      split; [reflexivity|]; cbn [firstn skipn nth table];
      split; [all_miss | split; [all_miss | first [apply route_hits | apply mount_hits]]]
  end.

(** The patterns of the table exclude one another: a path fits one entry
    at most. *)
Lemma table_view (__file__ : list string) (m p : string) :
  Forall (misses (request m p)) (table __file__)
  \/ exists pre r post,
       table __file__ = pre ++ r :: post /\
       Forall (misses (request m p)) pre /\ Forall (misses (request m p)) post /\
       ~ misses (request m p) r.
Proof.
  destruct (removeprefix "/static/" p) as [rest|] eqn:E.
  { apply removeprefix_Some in E. subst p. hit_at 6. }
  destruct (String.eqb_spec p "/openapi.json") as [->|N1]; [hit_at 0|].
  destruct (String.eqb_spec p "/docs") as [->|N2]; [hit_at 1|].
  destruct (String.eqb_spec p "/docs/oauth2-redirect") as [->|N3]; [hit_at 2|].
  destruct (String.eqb_spec p "/redoc") as [->|N4]; [hit_at 3|].
  destruct (String.eqb_spec p "/api/health") as [->|N5]; [hit_at 4|].
  destruct (String.eqb_spec p "/api/info") as [->|N6]; [hit_at 5|].
  destruct (String.eqb_spec p "/") as [->|N7]; [hit_at 7|].
  left. unfold table. all_miss.
Qed.

(** ** The static mount *)

Lemma stat_realpath (d : gmap (list string) Node) (p : list string) :
  stat d (realpath p) = stat d p.
Proof.
  unfold stat. now rewrite realpath_idempotent.
Qed.

(** The parts [normpath] keeps are parts it was given. *)
Lemma normpath_parts (P : string -> Prop) (b : bool) (comps : list string) :
  Forall P comps -> Forall P (normpath b comps).
Proof.
  intros Hc. unfold normpath. apply Forall_rev.
  assert (H : forall stack, Forall P stack -> Forall P (fold_left (norm_step b) comps stack)).
  { induction Hc as [|c comps Hc Hcs IH]; intros stack Hs; [exact Hs|].
    cbn [fold_left]. apply IH.
    destruct (norm_step_cases b stack c) as [[_ ->]|[[-> ->]|[_ ->]]].
    - exact Hs.
    - destruct (_ || _); [constructor; assumption|].
      destruct stack; [constructor | now inversion Hs].
    - constructor; assumption. }
  apply H. constructor.
Qed.

Lemma split_slash_contains (c : ascii) (s : string) :
  contains c s = false -> Forall (fun part => contains c part = false) (split_slash s).
Proof.
  induction s as [|c' s IH]; cbn [contains split_slash]; intros H.
  - repeat constructor.
  - apply orb_false_iff in H as [Hc Hs]. specialize (IH Hs).
    destruct (Ascii.eqb c' "/"%char); [constructor; [reflexivity | exact IH]|].
    destruct (split_slash s) as [|part parts]; [repeat constructor; cbn; now rewrite Hc|].
    inversion IH as [|? ? Hpart Hparts]; subst.
    constructor; [cbn; now rewrite Hc, Hpart | exact Hparts].
Qed.

Lemma existsb_contains_false (c : ascii) (parts : list string) :
  Forall (fun part => contains c part = false) parts -> existsb (contains c) parts = false.
Proof.
  induction 1 as [|part parts Hpart _ IH]; [reflexivity|]. cbn. now rewrite Hpart, IH.
Qed.

(** Below [/static/], a path without NUL byte gives [lookup_path] nothing
    to raise on. *)
Lemma static_path_no_nul (m rest : string) :
  no_nul rest ->
  existsb (contains NUL)
    (get_path {| method := m; path := "/static/" +:+ rest; root_path := "/static" |}) = false.
Proof.
  intros H. apply existsb_contains_false. unfold get_path.
  change (get_route_path _) with (String "/" rest).
  apply normpath_parts, (split_slash_contains NUL (String "/" rest)). exact H.
Qed.

(** Past the check of its directory, [StaticFiles] refuses the method,
    raises on a NUL byte, sends the file the path names, or raises 404;
    the world is not touched. *)
Lemma get_response_cases (self : StaticFiles) (scope : Scope) (w : World) :
  let target := directory self ++ split_slash (get_route_path scope) in
  let answer := (get_response self (get_path scope) scope
                 ≫= fun response => send response scope) w in
  (String.eqb (method scope) "GET" || String.eqb (method scope) "HEAD" = false /\
   answer = (Raise (HTTPException 405 "Method Not Allowed"), w))
  \/ (String.eqb (method scope) "GET" || String.eqb (method scope) "HEAD" = true /\
      existsb (contains NUL) (get_path scope) = true /\
      answer = (Raise (ValueError "embedded null byte"), w))
  \/ (String.eqb (method scope) "GET" || String.eqb (method scope) "HEAD" = true /\
      existsb (contains NUL) (get_path scope) = false /\
      exists content,
        stat (disk w) target = Some (File content) /\
        answer = (Ok {| status := 200;
                        body := Bytes (if String.eqb (method scope) "HEAD" then "" else content) |}, w))
  \/ (String.eqb (method scope) "GET" || String.eqb (method scope) "HEAD" = true /\
      existsb (contains NUL) (get_path scope) = false /\
      (forall content, stat (disk w) target <> Some (File content)
                       \/ commonpath (realpath target) (realpath (directory self))
                          <> realpath (directory self)) /\
      answer = (Raise (HTTPException 404 "Not Found"), w)).
Proof.
  intros target answer. subst answer. unfold get_response.
  destruct (String.eqb (method scope) "GET" || String.eqb (method scope) "HEAD") eqn:Hm;
    cbn [negb]; [right | left; split; reflexivity].
  unfold lookup_path.
  destruct (existsb (contains NUL) (get_path scope)) eqn:Hnul;
    [left; repeat split; reflexivity | right].
  unfold get_path, mbind, M_bind, os_stat.
  rewrite realpath_normpath. fold target.
  destruct (bool_decide _) eqn:Hunder.
  - rewrite stat_realpath.
    destruct (stat (disk w) target) as [[content|]|] eqn:Hstat; cbn.
    + left. split; [reflexivity|]. split; [reflexivity|].
      exists content. split; [reflexivity|].
      unfold FileResponse_call, mbind, M_bind, open_read. cbn.
      destruct (String.eqb (method scope) "HEAD"); [reflexivity|].
      now rewrite stat_realpath, Hstat.
    + right. repeat split; try reflexivity. intros c. left. discriminate.
    + right. repeat split; try reflexivity. intros c. left. discriminate.
  - right. repeat split; try reflexivity. intros c. right.
    apply bool_decide_eq_false in Hunder. exact Hunder.
Qed.

(** What [StaticFiles] does with a request, by cases: the one-off check of
    its directory fails; or, the check passed and remembered, it goes on as
    above. *)
Lemma StaticFiles_call_cases (self : StaticFiles) (scope : Scope) (w : World) :
  let target := directory self ++ split_slash (get_route_path scope) in
  let w' := {| disk := disk w; config_checked := true |} in
  (config_checked w = false /\ isdir (disk w) (directory self) = false /\
   exists msg, StaticFiles_call self scope w = (Raise (RuntimeError msg), w))
  \/ ((config_checked w = true \/ isdir (disk w) (directory self) = true) /\
      StaticFiles_call self scope w
      = (get_response self (get_path scope) scope ≫= fun response => send response scope) w').
Proof.
  intros target w'.
  assert (Hw : config_checked w = true -> w = w').
  { destruct w as [d c]. cbn. intros ->. reflexivity. }
  unfold StaticFiles_call. rewrite bind_eq. unfold get_config_checked.
  cbv beta iota. rewrite bind_eq.
  destruct (config_checked w) eqn:Hc; cbn [negb when].
  - right. split; [now left|]. rewrite <- (Hw eq_refl). reflexivity.
  - rewrite bind_eq. unfold check_config. rewrite bind_eq.
    unfold isdir, os_stat. cbv beta iota.
    destruct (stat (disk w) (directory self)) as [[c|]|] eqn:Hd.
    + left. repeat split. eexists. reflexivity.
    + right. split; [now right|]. reflexivity.
    + left. repeat split. eexists. reflexivity.
Qed.

Lemma static_dispatch (__file__ : list string) (m rest : string) :
  Router_app (table __file__) (request m ("/static/" +:+ rest))
  = StaticFiles_call {| directory := main.static_dir __file__ |}
      {| method := m; path := "/static/" +:+ rest; root_path := "/static" |}.
Proof.
  change (table __file__)
    with (firstn 6 (table __file__)
          ++ Mount "/static" {| directory := main.static_dir __file__ |}
          :: skipn 7 (table __file__)).
  rewrite only_hit_handles.
  - reflexivity.
  - cbn [firstn table]. all_miss.
  - cbn [skipn table]. all_miss.
  - apply mount_hits.
Qed.

Lemma static_target (d : gmap (list string) Node) (dir : list string) (m rest : string) :
  stat d (dir ++ split_slash (get_route_path
            {| method := m; path := "/static/" +:+ rest; root_path := "/static" |}))
  = stat d (dir ++ split_slash rest).
Proof.
  change (get_route_path _) with (String "/" rest).
  change (split_slash (String "/" rest)) with ("" :: split_slash rest).
  unfold stat, realpath, normpath. now rewrite !fold_left_app.
Qed.

(** The application's answer below [/static/], from what [StaticFiles]
    raised or sent. *)
Lemma call_static (__file__ : list string) (w0 w1 : World) (a : FastAPI) (m rest : string)
    (w : World) :
  main.app __file__ w0 = (Ok a, w1) ->
  call a (request m ("/static/" +:+ rest)) w
  = match StaticFiles_call {| directory := main.static_dir __file__ |}
            {| method := m; path := "/static/" +:+ rest; root_path := "/static" |} w with
    | (Ok msg, w') => (msg, w')
    | (Raise (HTTPException status_code detail), w') =>
        ({| status := status_code; body := Bytes (json_dumps [("detail", detail)]) |}, w')
    | (Raise _, w') => ({| status := 500; body := Bytes "Internal Server Error" |}, w')
    end.
Proof.
  intros loaded. unfold call, ServerErrorMiddleware, ExceptionMiddleware.
  rewrite (routes_loaded _ _ _ _ loaded), static_dispatch.
  destruct (StaticFiles_call _ _ w) as [[msg|[sc detail|msg|msg|f]] w']; reflexivity.
Qed.


Lemma commonpath_app (b tail : list string) : commonpath (b ++ tail) b = b.
Proof.
  induction b as [|y b IH]; cbn; [now destruct tail|].
  now rewrite String.eqb_refl, IH.
Qed.

(** Plain parts never lead out of a directory. *)
Lemma plain_parts_below (dir comps : list string) :
  Forall plain comps -> below dir (dir ++ comps).
Proof.
  intros Hc. unfold below, realpath, normpath.
  rewrite fold_left_app, plain_parts_stay by exact Hc.
  rewrite rev_app_distr, rev_involutive. apply commonpath_app.
Qed.

Lemma below_static_target (dir : list string) (m rest : string) :
  below dir (dir ++ split_slash (get_route_path
               {| method := m; path := "/static/" +:+ rest; root_path := "/static" |}))
  <-> below dir (dir ++ split_slash rest).
Proof.
  change (get_route_path _) with (String "/" rest).
  change (split_slash (String "/" rest)) with ("" :: split_slash rest).
  unfold below, realpath, normpath. now rewrite !fold_left_app.
Qed.

(** What [StaticFiles] sends, past its check, for [GET] or [HEAD] on a file
    that is there and below the directory. *)
Lemma get_response_file (self : StaticFiles) (scope : Scope) (w : World) (content : string) :
  String.eqb (method scope) "GET" || String.eqb (method scope) "HEAD" = true ->
  existsb (contains NUL) (get_path scope) = false ->
  below (directory self) (directory self ++ split_slash (get_route_path scope)) ->
  stat (disk w) (directory self ++ split_slash (get_route_path scope)) = Some (File content) ->
  (get_response self (get_path scope) scope ≫= fun response => send response scope) w
  = (Ok {| status := 200;
           body := Bytes (if String.eqb (method scope) "HEAD" then "" else content) |}, w).
Proof.
  intros Hm Hnul Hbelow Hstat.
  destruct (get_response_cases self scope w)
    as [(Hm' & _) | [(_ & Hraise & _) | [(_ & _ & content' & Hstat' & ->) | (_ & _ & Hnot & _)]]].
  - congruence.
  - congruence.
  - rewrite Hstat in Hstat'. now inversion Hstat'.
  - destruct (Hnot content) as [H|H]; [now destruct H | now destruct H].
Qed.

(** The converse: a message sent by [StaticFiles] carries a file that is
    there, below the directory. *)
Lemma get_response_sent (self : StaticFiles) (scope : Scope) (w w' : World) (msg : Message) :
  (get_response self (get_path scope) scope ≫= fun response => send response scope) w
  = (Ok msg, w') ->
  exists content,
    below (directory self) (directory self ++ split_slash (get_route_path scope)) /\
    stat (disk w) (directory self ++ split_slash (get_route_path scope)) = Some (File content) /\
    msg = {| status := 200;
             body := Bytes (if String.eqb (method scope) "HEAD" then "" else content) |}.
Proof.
  unfold get_response.
  destruct (String.eqb (method scope) "GET" || String.eqb (method scope) "HEAD");
    cbn [negb]; [|discriminate].
  unfold lookup_path. rewrite !bind_eq.
  destruct (existsb (contains NUL) (get_path scope)); [discriminate|].
  unfold get_path. rewrite realpath_normpath.
  destruct (bool_decide _) eqn:Hunder; [|discriminate].
  apply bool_decide_eq_true in Hunder.
  rewrite bind_eq. unfold os_stat. rewrite stat_realpath.
  destruct (stat (disk w) _) as [[content|]|] eqn:Hstat; cbn; try discriminate.
  unfold FileResponse_call. rewrite !bind_eq. cbn.
  intros H. exists content. split; [exact Hunder | split; [reflexivity|]].
  destruct (String.eqb (method scope) "HEAD"); [now inversion H|].
  unfold open_read in H. rewrite bind_eq, stat_realpath, Hstat in H. now inversion H.
Qed.

(** C8, as the code has it.  [GET /static/<missing-file>] is answered with
    the framework's 404 when the path after [/static/] has no NUL byte and
    no line break, the static directory is on the disk (or was when
    [StaticFiles] made its one check of it), and no regular file stands at
    the place the path resolves to inside the static directory (a path that
    leads out of the directory is of that kind, whatever it leads to).
    [GET /api/does-not-exist] is answered with the 404 in every world. *)
Theorem missing_static_file_and_unknown_api_are_404 (__file__ : list string) (w0 w1 : World)
    (a : FastAPI) (loaded : main.app __file__ w0 = (Ok a, w1)) (w : World) :
  (forall rest,
      no_line_break rest -> no_nul rest ->
      isdir (disk w) (main.static_dir __file__) = true \/ config_checked w = true ->
      (below (main.static_dir __file__) (main.static_dir __file__ ++ split_slash rest) ->
       isfile (disk w) (main.static_dir __file__ ++ split_slash rest) = false) ->
      fst (call a (request "GET" ("/static/" +:+ rest)) w) = not_found_message) /\
  call a (request "GET" "/api/does-not-exist") w = (not_found_message, w).
Proof.
  split.
  - intros rest _ Hnul Hdir Hfile.
    rewrite (call_static _ _ _ _ _ _ _ loaded).
    destruct (StaticFiles_call_cases {| directory := main.static_dir __file__ |}
                {| method := "GET"; path := "/static/" +:+ rest; root_path := "/static" |} w)
      as [(Hc & Hno & _) | (_ & ->)].
    { cbn in Hno. destruct Hdir; congruence. }
    destruct (get_response_cases {| directory := main.static_dir __file__ |}
                {| method := "GET"; path := "/static/" +:+ rest; root_path := "/static" |}
                {| disk := disk w; config_checked := true |})
      as [(Hm & _) | [(_ & Hraise & _) | [(_ & _ & content & Hstat & E) | (_ & _ & _ & ->)]]].
    + discriminate Hm.
    + rewrite (static_path_no_nul _ _ Hnul) in Hraise. discriminate.
    + apply get_response_sent in E as (content' & Hbelow & _).
      cbn [directory disk] in Hbelow, Hstat.
      apply below_static_target in Hbelow. rewrite static_target in Hstat.
      specialize (Hfile Hbelow). unfold isfile in Hfile. rewrite Hstat in Hfile. discriminate.
    + reflexivity.
  - unfold call. rewrite (routes_loaded _ _ _ _ loaded). reflexivity.
Qed.

Lemma missing_static_file_and_unknown_api_are_404_witness :
  exists a w1,
    main.app install (at_startup disk_complete) = (Ok a, w1) /\
    fst (call a (request "GET" ("/static/" +:+ "../index.html")) w1) = not_found_message.
Proof.
  eexists; eexists; split; [reflexivity |].
  apply (proj1 (missing_static_file_and_unknown_api_are_404 install (at_startup disk_complete)
                  _ _ eq_refl _) "../index.html"); [reflexivity | reflexivity | now left |].
  intros Hbelow. exfalso. revert Hbelow. unfold below. vm_compute. discriminate.
Defined.

(** C8, as the spec has it, fails: a request for a file that is not in the
    static directory is answered with 500, not 404, when the directory
    itself has gone since startup and has not been checked yet, and also,
    the directory being there, when the path holds a NUL byte. *)
Lemma missing_static_file_can_be_500 :
  exists a w1,
    main.app install (at_startup disk_complete) = (Ok a, w1) /\
    isfile disk_empty (main.static_dir install ++ split_slash "none.css") = false /\
    status (fst (call a (request "GET" ("/static/" +:+ "none.css")) (at_startup disk_empty)))
    = 500 /\
    isfile disk_complete
      (main.static_dir install ++ split_slash (String NUL EmptyString)) = false /\
    status (fst (call a (request "GET" ("/static/" +:+ String NUL EmptyString)) w1)) = 500.
Proof.
  eexists; eexists; split; [reflexivity |].
  repeat split; reflexivity.
Qed.

(** ** Requests that fit no entry *)

Lemma existsb_hits (scope : Scope) (rs : list BaseRoute) :
  existsb (fun r => negb (is_none (fst (matches r scope)))) rs = false
  <-> Forall (misses scope) rs.
Proof.
  induction rs as [|r rs IH]; cbn [existsb].
  - split; [constructor | reflexivity].
  - rewrite orb_false_iff, IH. unfold misses at 2.
    split.
    + intros [Hr Hrs]. constructor; [|exact Hrs].
      destruct (fst (matches r scope)); [reflexivity | discriminate..].
    + intros H. inversion H as [|? ? Hr Hrs]; subst. rewrite Hr. auto.
Qed.

(** When no entry fits the path: a redirect if the path with its trailing
    slashes removed, or with one added, fits an entry; the 404 if not. *)
Lemma call_unmatched (__file__ : list string) (w0 w1 : World) (a : FastAPI) (m p : string)
    (w : World) :
  main.app __file__ w0 = (Ok a, w1) ->
  Forall (misses (request m p)) (routes a) ->
  call a (request m p) w
  = (if existsb (fun r => negb (is_none (fst (matches r (request m (redirect_path p))))))
                (routes a)
     then redirect_message else not_found_message, w).
Proof.
  intros loaded Hmiss.
  unfold call, ServerErrorMiddleware, ExceptionMiddleware.
  rewrite no_hit_not_matched by exact Hmiss.
  assert (Hroot : String.eqb p "/" = false).
  { rewrite (routes_loaded _ _ _ _ loaded) in Hmiss.
    pose proof (Forall_lookup_1 _ _ 7 _ Hmiss eq_refl) as Hr.
    destruct (String.eqb_spec p "/") as [->|]; [|reflexivity].
    exfalso. revert Hr. apply route_hits. }
  unfold not_matched. cbn [get_route_path request root_path path String.eqb method].
  rewrite Hroot. cbn [negb andb].
  destruct (existsb _ (routes a)); reflexivity.
Qed.

(** C5, as the code has it.  The table is fixed once the module is loaded:
    after the framework's documentation routes come the API routes, then
    the static mount, then the root path.  A request goes to the first
    entry its path fits.  A request fitting no entry gets the standard 404,
    unless its path fits an entry once its trailing slashes are removed, or
    one is added: then it gets a redirect (307) instead. *)
Theorem first_match_handles_else_redirect_or_404 (__file__ : list string) (w0 w1 : World)
    (a : FastAPI) (loaded : main.app __file__ w0 = (Ok a, w1)) (m p : string) :
  map route_path_of (routes a)
  = ["/openapi.json"; "/docs"; "/docs/oauth2-redirect"; "/redoc";
     "/api/health"; "/api/info"; "/static"; "/"] /\
  (forall pre r post,
      routes a = pre ++ r :: post ->
      Forall (misses (request m p)) pre -> ~ misses (request m p) r ->
      Router_app (routes a) (request m p) = handle r (snd (matches r (request m p)))) /\
  (Forall (misses (request m p)) (routes a) ->
   forall w,
     call a (request m p) w
     = (if existsb (fun r => negb (is_none (fst (matches r (request m (redirect_path p))))))
                   (routes a)
        then redirect_message else not_found_message, w)).
Proof.
  pose proof (routes_loaded _ _ _ _ loaded) as Htable.
  split; [rewrite Htable; reflexivity | split].
  - intros pre r post E Hpre Hr. rewrite Htable in E |- *.
    destruct (table_view __file__ m p)
      as [Hmiss | (pre0 & r0 & post0 & E0 & Hpre0 & Hpost0 & Hr0)].
    + exfalso. apply Hr. rewrite E in Hmiss.
      exact (Forall_lookup_1 _ _ _ _ Hmiss (list_lookup_middle pre post r _ eq_refl)).
    + rewrite E0 in E.
      destruct (first_hit_is_only_hit _ _ _ _ _ _ _ E Hpre0 Hpost0 Hpre Hr) as (-> & -> & ->).
      rewrite E0. now apply only_hit_handles.
  - intros Hmiss w. now apply (call_unmatched __file__ w0 w1).
Qed.

Lemma first_match_handles_else_redirect_or_404_witness :
  exists a w1,
    main.app install (at_startup disk_complete) = (Ok a, w1) /\
    call a (request "GET" "/api/healthz") w1 = (not_found_message, w1).
Proof.
  eexists; eexists; split; [reflexivity |].
  apply (proj2 (proj2 (first_match_handles_else_redirect_or_404 install
                         (at_startup disk_complete) _ _ eq_refl "GET" "/api/healthz"))).
  repeat (constructor; [reflexivity|]). constructor.
Defined.

(** C5, as the spec has it, fails in its last part: [GET /api/health/] fits
    no entry of the table, and is answered with a redirect, not with 404. *)
Lemma unmatched_request_is_redirected :
  exists a w1,
    main.app install (at_startup disk_complete) = (Ok a, w1) /\
    Forall (misses (request "GET" "/api/health/")) (routes a) /\
    fst (call a (request "GET" "/api/health/") w1) = redirect_message /\
    status (fst (call a (request "GET" "/api/health/") w1)) <> 404.
Proof.
  eexists; eexists; split; [reflexivity |].
  split; [repeat (constructor; [reflexivity|]); constructor |].
  split; [reflexivity | discriminate].
Qed.

(** ** Methods a route does not take *)

Lemma call_route (__file__ : list string) (w0 w1 : World) (a : FastAPI)
    (pre post : list BaseRoute) (p0 : string) (ms : list string) (ep : Scope -> M Message)
    (m : string) (w : World) :
  main.app __file__ w0 = (Ok a, w1) ->
  table __file__ = pre ++ Route p0 ms ep :: post ->
  Forall (misses (request m p0)) pre -> Forall (misses (request m p0)) post ->
  call a (request m p0) w
  = if allows ms m
    then ServerErrorMiddleware (ExceptionMiddleware ep) (request m p0) w
    else (method_not_allowed_message, w).
Proof.
  intros loaded E Hpre Hpost.
  unfold call, ServerErrorMiddleware, ExceptionMiddleware.
  rewrite (routes_loaded _ _ _ _ loaded), E.
  rewrite only_hit_handles by (assumption || apply route_hits).
  cbn [handle matches get_route_path request root_path path method String.eqb].
  rewrite String.eqb_refl.
  destruct (allows ms m) eqn:Hm; cbn [snd method request]; rewrite Hm; reflexivity.
Qed.

Ltac wrong_method_at k Hm :=
  match goal with
  | loaded : main.app ?f ?w0 = (Ok ?a, ?w1) |- call ?a (request ?m ?p0) ?w = _ /\ _ =>
      split;
      [ rewrite (call_route f w0 w1 a (firstn k (table f)) (skipn (S k) (table f))
                   p0 _ _ m w loaded eq_refl);
        [ now rewrite Hm | cbn [firstn table]; all_miss | cbn [skipn table]; all_miss ]
      | rewrite (routes_loaded _ _ _ _ loaded); intros Hall;
        apply (route_hits m p0) with (1 := Forall_lookup_1 _ _ k _ Hall eq_refl) ]
  end.

(** C6, as the code has it.  Not found is not the only class of
    request-time error.  A request whose path (free of line breaks) fits no
    entry of the route table, with or without its trailing slash, gets the
    404.  But a request whose path is that of a route which does not take
    its method fits that entry and gets the 405 instead. *)
Theorem unmatched_is_404_and_wrong_method_is_405 (__file__ : list string) (w0 w1 : World)
    (a : FastAPI) (loaded : main.app __file__ w0 = (Ok a, w1)) (m p : string) (w : World) :
  (no_line_break p ->
   Forall (misses (request m p)) (routes a) ->
   Forall (misses (request m (redirect_path p))) (routes a) ->
   call a (request m p) w = (not_found_message, w)) /\
  (forall p0 ms ep,
      In (Route p0 ms ep) (routes a) -> allows ms m = false ->
      call a (request m p0) w = (method_not_allowed_message, w) /\
      ~ Forall (misses (request m p0)) (routes a)).
Proof.
  split.
  - intros _ Hmiss Hredirect.
    rewrite (call_unmatched _ _ _ _ _ _ w loaded Hmiss).
    apply existsb_hits in Hredirect. now rewrite Hredirect.
  - intros p0 ms ep Hin Hm.
    rewrite (routes_loaded _ _ _ _ loaded) in Hin. cbn [table In] in Hin.
    destruct Hin as [H|[H|[H|[H|[H|[H|[H|[H|[]]]]]]]]]; try discriminate H;
      inversion H; subst p0 ms ep; clear H.
    + wrong_method_at 0 Hm.
    + wrong_method_at 1 Hm.
    + wrong_method_at 2 Hm.
    + wrong_method_at 3 Hm.
    + wrong_method_at 4 Hm.
    + wrong_method_at 5 Hm.
    + wrong_method_at 7 Hm.
Qed.

Lemma unmatched_is_404_and_wrong_method_is_405_witness :
  exists a w1,
    main.app install (at_startup disk_complete) = (Ok a, w1) /\
    call a (request "DELETE" "/players/3") w1 = (not_found_message, w1).
Proof.
  eexists; eexists; split; [reflexivity |].
  apply (proj1 (unmatched_is_404_and_wrong_method_is_405 install (at_startup disk_complete)
                  _ _ eq_refl "DELETE" "/players/3" _));
    [reflexivity | |]; repeat (constructor; [reflexivity|]); constructor.
Defined.

(** C6, as the spec has it, fails: [POST /api/health] is taken in full by no
    entry of the table, and is answered with 405, not with 404. *)
Lemma wrong_method_is_405_not_404 :
  exists a w1,
    main.app install (at_startup disk_complete) = (Ok a, w1) /\
    Forall (fun r => fst (matches r (request "POST" "/api/health")) <> FULL) (routes a) /\
    fst (call a (request "POST" "/api/health") w1) = method_not_allowed_message /\
    status (fst (call a (request "POST" "/api/health") w1)) <> 404.
Proof.
  eexists; eexists; split; [reflexivity |].
  split; [repeat (constructor; [discriminate|]); constructor |].
  split; [reflexivity | discriminate].
Qed.

(** * Further properties of the application *)

(** ** Files below the static mount *)

(** X1. A file of the static directory is served as it is to a request
    without headers (no [Range], no conditional header): when the path after
    [/static/], free of line breaks and NUL bytes, names a regular file
    below the static directory (as every path of plain parts does), [GET]
    is answered with status 200 and the bytes of the file, [HEAD] with
    status 200 and no body; the directory check is passed and remembered. *)
Theorem existing_static_file_is_served (__file__ : list string) (w0 w1 : World) (a : FastAPI)
    (loaded : main.app __file__ w0 = (Ok a, w1)) (w : World) (rest content : string)
    (Hlines : no_line_break rest) (Hnul : no_nul rest)
    (Hdir : isdir (disk w) (main.static_dir __file__) = true \/ config_checked w = true)
    (Hplace : Forall plain (split_slash rest)
              \/ below (main.static_dir __file__) (main.static_dir __file__ ++ split_slash rest))
    (Hfile : stat (disk w) (main.static_dir __file__ ++ split_slash rest) = Some (File content)) :
  call a (request "GET" ("/static/" +:+ rest)) w
  = ({| status := 200; body := Bytes content |}, {| disk := disk w; config_checked := true |}) /\
  call a (request "HEAD" ("/static/" +:+ rest)) w
  = ({| status := 200; body := Bytes "" |}, {| disk := disk w; config_checked := true |}).
Proof.
  assert (Hbelow : below (main.static_dir __file__) (main.static_dir __file__ ++ split_slash rest)).
  { destruct Hplace as [Hplain|H]; [now apply plain_parts_below | exact H]. }
  assert (Hany : forall m, String.eqb m "GET" || String.eqb m "HEAD" = true ->
            call a (request m ("/static/" +:+ rest)) w
            = ({| status := 200; body := Bytes (if String.eqb m "HEAD" then "" else content) |},
               {| disk := disk w; config_checked := true |})).
  { intros m Hm. rewrite (call_static _ _ _ _ _ _ _ loaded).
    destruct (StaticFiles_call_cases {| directory := main.static_dir __file__ |}
                {| method := m; path := "/static/" +:+ rest; root_path := "/static" |} w)
      as [(Hc & Hno & _) | (_ & ->)].
    { cbn in Hno. destruct Hdir; congruence. }
    rewrite (get_response_file _ _ _ content);
      [reflexivity | exact Hm | now apply static_path_no_nul | |].
    - now apply below_static_target.
    - cbn [directory disk]. now rewrite static_target. }
  split; [exact (Hany "GET" eq_refl) | exact (Hany "HEAD" eq_refl)].
Qed.

Lemma existing_static_file_is_served_witness :
  exists a w1,
    main.app install (at_startup disk_complete) = (Ok a, w1) /\
    fst (call a (request "GET" ("/static/" +:+ "app.js")) w1)
    = {| status := 200; body := Bytes "init();" |}.
Proof.
  eexists; eexists; split; [reflexivity |].
  match goal with
  | |- fst (call ?a _ ?w) = _ =>
      destruct (existing_static_file_is_served install (at_startup disk_complete) w a eq_refl
                  w "app.js" "init();") as [Hget _]
  end.
  - reflexivity.
  - reflexivity.
  - left. reflexivity.
  - left. change (split_slash "app.js") with ["app.js"]. repeat constructor; discriminate.
  - reflexivity.
  - rewrite Hget. reflexivity.
Defined.



(** ** Methods *)

Lemma allows_GET_only_false (m : string) : m <> "GET" -> allows ["GET"] m = false.
Proof.
  intros H. unfold allows. cbn [existsb]. rewrite orb_false_r. now apply String.eqb_neq.
Qed.

(** X3. The three handlers are registered for [GET] alone: on [/api/health],
    [/api/info] and [/] every other method, [HEAD] included, is answered
    with the 405 message; the handler is not run and the world is left as it
    was. *)
Theorem handlers_take_GET_only (__file__ : list string) (w0 w1 : World) (a : FastAPI)
    (loaded : main.app __file__ w0 = (Ok a, w1)) (h : handler) (m : string) (w : World)
    (other : m <> "GET") :
  call a (request m (handler_path h)) w = (method_not_allowed_message, w).
Proof.
  apply allows_GET_only_false in other.
  destruct h; cbn [handler_path].
  - rewrite (call_route __file__ w0 w1 a (firstn 4 (table __file__)) (skipn 5 (table __file__))
               "/api/health" ["GET"] _ m w loaded eq_refl);
      [now rewrite other | cbn [firstn table]; all_miss | cbn [skipn table]; all_miss].
  - rewrite (call_route __file__ w0 w1 a (firstn 5 (table __file__)) (skipn 6 (table __file__))
               "/api/info" ["GET"] _ m w loaded eq_refl);
      [now rewrite other | cbn [firstn table]; all_miss | cbn [skipn table]; all_miss].
  - rewrite (call_route __file__ w0 w1 a (firstn 7 (table __file__)) (skipn 8 (table __file__))
               "/" ["GET"] _ m w loaded eq_refl);
      [now rewrite other | cbn [firstn table]; all_miss | cbn [skipn table]; all_miss].
Qed.

Lemma handlers_take_GET_only_witness :
  exists a w1,
    main.app install (at_startup disk_complete) = (Ok a, w1) /\
    call a (request "HEAD" "/api/info") w1 = (method_not_allowed_message, w1).
Proof.
  eexists; eexists; split; [reflexivity |].
  apply (handlers_take_GET_only install (at_startup disk_complete) _ _ eq_refl GetInfo "HEAD").
  discriminate.
Defined.

(** ** The state a request leaves behind *)

Lemma table_routes_quiet (__file__ : list string) (p : string) (ms : list string)
    (ep : Scope -> M Message) :
  In (Route p ms ep) (table __file__) -> quiet_route (Route p ms ep).
Proof.
  intros Hin scope w. cbn [table In] in Hin.
  destruct Hin as [H|[H|[H|[H|[H|[H|[H|[H|[]]]]]]]]]; try discriminate H;
    inversion H; subst; cbn [handle];
    (destruct (allows _ (method scope)); cbn [negb]; [|reflexivity]).
  1-6: reflexivity.
  unfold main.read_root, get_request_handler, send, FileResponse_call, open_read, os_stat.
  repeat (rewrite bind_eq; cbn).
  destruct (stat (disk w) _) as [[content|]|] eqn:E; cbn; try reflexivity.
  destruct (String.eqb (method scope) "HEAD"); [reflexivity|].
  rewrite ?bind_eq. cbn. now rewrite E.
Qed.

Lemma mount_world (self : StaticFiles) (scope : Scope) (w : World) :
  snd (StaticFiles_call self scope w) = w
  \/ snd (StaticFiles_call self scope w) = {| disk := disk w; config_checked := true |}.
Proof.
  destruct (StaticFiles_call_cases self scope w) as [(_ & _ & msg & ->) | (_ & ->)];
    [now left | right].
  destruct (get_response_cases self scope {| disk := disk w; config_checked := true |})
    as [(_ & ->) | [(_ & _ & ->) | [(_ & _ & content & _ & ->) | (_ & _ & _ & ->)]]];
    reflexivity.
Qed.

Lemma handle_world (__file__ : list string) (r : BaseRoute) (scope : Scope) (w : World) :
  In r (table __file__) ->
  snd (handle r scope w) = w
  \/ snd (handle r scope w) = {| disk := disk w; config_checked := true |}.
Proof.
  intros Hin. destruct r as [p ms ep | p sf].
  - left. now apply (table_routes_quiet __file__).
  - apply mount_world.
Qed.

Lemma not_matched_world (all : list BaseRoute) (scope : Scope) (w : World) :
  snd (not_matched all None scope w) = w.
Proof.
  unfold not_matched. now destruct (_ && _).
Qed.

Lemma route_loop_world (__file__ : list string) (all rest : list BaseRoute)
    (partial : option (BaseRoute * Scope)) (scope : Scope) (w : World) :
  (forall r, In r rest -> In r (table __file__)) ->
  (forall r s, partial = Some (r, s) -> In r (table __file__)) ->
  snd (route_loop all rest partial scope w) = w
  \/ snd (route_loop all rest partial scope w) = {| disk := disk w; config_checked := true |}.
Proof.
  revert partial. induction rest as [|r rest IH]; intros partial Hrest Hpartial.
  - cbn [route_loop]. destruct partial as [[r s]|].
    + apply (handle_world __file__), (Hpartial r s eq_refl).
    + left. apply not_matched_world.
  - cbn [route_loop]. destruct (matches r scope) as [[| |] child].
    + apply IH; [intros r' Hr'; apply Hrest; now right | exact Hpartial].
    + apply IH; [intros r' Hr'; apply Hrest; now right |].
      intros r' s'. destruct partial as [[r0 s0]|]; intros E; inversion E; subst.
      * now apply (Hpartial r' s').
      * apply Hrest. now left.
    + apply (handle_world __file__), Hrest. now left.
Qed.

Lemma call_world_is_router_world (a : FastAPI) (scope : Scope) (w : World) :
  snd (call a scope w) = snd (Router_app (routes a) scope w).
Proof.
  unfold call, ServerErrorMiddleware, ExceptionMiddleware.
  destruct (Router_app (routes a) scope w) as [[msg|[sc detail|msg|msg|f]] w']; reflexivity.
Qed.

Lemma router_world (__file__ : list string) (w0 w1 : World) (a : FastAPI) (scope : Scope)
    (w : World) :
  main.app __file__ w0 = (Ok a, w1) ->
  snd (call a scope w) = w
  \/ snd (call a scope w) = {| disk := disk w; config_checked := true |}.
Proof.
  intros loaded.
  rewrite call_world_is_router_world, (routes_loaded _ _ _ _ loaded).
  exact (route_loop_world __file__ (table __file__) (table __file__) None scope w
           (fun r H => H) ltac:(discriminate)).
Qed.

Lemma world_once_checked (__file__ : list string) (w0 w1 : World) (a : FastAPI)
    (loaded : main.app __file__ w0 = (Ok a, w1)) (scope : Scope) (w : World) :
  disk (snd (call a scope w)) = disk w /\
  (config_checked w = true -> snd (call a scope w) = w).
Proof.
  destruct (router_world __file__ w0 w1 a scope w loaded) as [-> | ->].
  - split; reflexivity.
  - split; [reflexivity|]. intros Hc. destruct w as [d c]. cbn in Hc |- *. now subst c.
Qed.

(** ** The directory check over a run of the server *)

Lemma static_answer_sets_checked (__file__ : list string) (w0 w1 : World) (a : FastAPI)
    (m rest : string) (w : World) :
  main.app __file__ w0 = (Ok a, w1) ->
  status (fst (call a (request m ("/static/" +:+ rest)) w)) <> 500 ->
  config_checked (snd (call a (request m ("/static/" +:+ rest)) w)) = true.
Proof.
  intros loaded. rewrite (call_static _ _ _ _ _ _ _ loaded).
  destruct (StaticFiles_call_cases {| directory := main.static_dir __file__ |}
              {| method := m; path := "/static/" +:+ rest; root_path := "/static" |} w)
    as [(_ & _ & msg & ->) | (_ & ->)]; [intros H; now destruct H|].
  destruct (get_response_cases {| directory := main.static_dir __file__ |}
              {| method := m; path := "/static/" +:+ rest; root_path := "/static" |}
              {| disk := disk w; config_checked := true |})
    as [(_ & ->) | [(_ & _ & ->) | [(_ & _ & content & _ & ->) | (_ & _ & _ & ->)]]];
    reflexivity.
Qed.

Lemma checked_static_is_not_500 (__file__ : list string) (w0 w1 : World) (a : FastAPI)
    (m rest : string) (w : World) :
  main.app __file__ w0 = (Ok a, w1) ->
  no_nul rest ->
  isdir (disk w) (main.static_dir __file__) = true \/ config_checked w = true ->
  status (fst (call a (request m ("/static/" +:+ rest)) w)) <> 500.
Proof.
  intros loaded Hnul Hok. rewrite (call_static _ _ _ _ _ _ _ loaded).
  destruct (StaticFiles_call_cases {| directory := main.static_dir __file__ |}
              {| method := m; path := "/static/" +:+ rest; root_path := "/static" |} w)
    as [(Hc & Hno & _) | (_ & ->)].
  { cbn in Hno. destruct Hok; congruence. }
  destruct (get_response_cases {| directory := main.static_dir __file__ |}
              {| method := m; path := "/static/" +:+ rest; root_path := "/static" |}
              {| disk := disk w; config_checked := true |})
    as [(_ & ->) | [(_ & Hraise & _) | [(_ & _ & content & _ & ->) | (_ & _ & _ & ->)]]];
    try discriminate.
  rewrite (static_path_no_nul _ _ Hnul) in Hraise. discriminate.
Qed.

Lemma checked_after_true (__file__ : list string) (w0 w1 : World) (a : FastAPI)
    (trace : list (gmap (list string) Node * Scope)) :
  main.app __file__ w0 = (Ok a, w1) -> checked_after a true trace = true.
Proof.
  intros loaded. induction trace as [|[d scope] trace IH]; [reflexivity|].
  cbn [checked_after].
  rewrite (proj2 (world_once_checked __file__ w0 w1 a loaded scope
                    {| disk := d; config_checked := true |}) eq_refl).
  exact IH.
Qed.

(** The answer at a position of a run, with the state the run has reached
    there. *)
Lemma serve_at (a : FastAPI) (trace : list (gmap (list string) Node * Scope)) :
  forall (checked : bool) (i : nat) (d : gmap (list string) Node) (scope : Scope),
    trace !! i = Some (d, scope) ->
    serve a checked trace !! i
    = Some (fst (call a scope {| disk := d;
                                 config_checked := checked_after a checked (take i trace) |})).
Proof.
  induction trace as [|[d0 s0] trace IH]; intros checked i d scope Hi.
  - destruct i; discriminate.
  - cbn [serve].
    destruct (call a s0 {| disk := d0; config_checked := checked |}) as [m w] eqn:E.
    destruct i as [|i]; cbn in Hi |- *.
    + inversion Hi; subst. now rewrite E.
    + rewrite E. cbn [snd]. now apply IH.
Qed.

Lemma checked_after_app (a : FastAPI) (t1 t2 : list (gmap (list string) Node * Scope)) :
  forall checked,
    checked_after a checked (t1 ++ t2) = checked_after a (checked_after a checked t1) t2.
Proof.
  induction t1 as [|[d s] t1 IH]; intros checked; [reflexivity|]. cbn. apply IH.
Qed.

(** X5. The check of the static directory is made once in the life of the
    server: in any run, once a request below [/static/] has been answered
    with anything but the 500, no later request below [/static/] is answered
    with the 500, whatever has become of the disk in between.  The paths of
    the two requests are free of line breaks, and that of the later one of
    NUL bytes, on which the file system raises at every request. *)
Theorem static_check_is_one_off (__file__ : list string) (w0 w1 : World) (a : FastAPI)
    (loaded : main.app __file__ w0 = (Ok a, w1)) (checked : bool)
    (trace : list (gmap (list string) Node * Scope)) (i j : nat)
    (d_i d_j : gmap (list string) Node) (m_i rest_i m_j rest_j : string) (msg_i msg_j : Message)
    (later : i < j)
    (lines_i : no_line_break rest_i) (lines_j : no_line_break rest_j) (nul_j : no_nul rest_j)
    (request_i : trace !! i = Some (d_i, request m_i ("/static/" +:+ rest_i)))
    (answer_i : serve a checked trace !! i = Some msg_i)
    (passed : status msg_i <> 500)
    (request_j : trace !! j = Some (d_j, request m_j ("/static/" +:+ rest_j)))
    (answer_j : serve a checked trace !! j = Some msg_j) :
  status msg_j <> 500.
Proof.
  rewrite (serve_at a trace checked i _ _ request_i) in answer_i.
  rewrite (serve_at a trace checked j _ _ request_j) in answer_j.
  inversion answer_i as [Hi]. inversion answer_j as [Hj]. clear answer_i answer_j.
  rewrite <- Hi in passed.
  apply (static_answer_sets_checked _ _ _ _ _ _ _ loaded) in passed.
  assert (Hj_checked : checked_after a checked (take j trace) = true).
  { rewrite <- (firstn_skipn (S i) (take j trace)).
    rewrite take_take, Nat.min_l by lia.
    rewrite (take_S_r _ _ _ request_i), !checked_after_app.
    cbn [checked_after]. rewrite passed.
    apply (checked_after_true _ _ _ _ _ loaded). }
  rewrite Hj_checked.
  apply (checked_static_is_not_500 _ _ _ _ _ _ _ loaded); [exact nul_j | now right].
Qed.

Lemma static_check_is_one_off_witness :
  exists a w1,
    main.app install (at_startup disk_complete) = (Ok a, w1) /\
    forall msg,
      serve a false [(disk_complete, request "GET" ("/static/" +:+ "app.js"));
                     (disk_empty, request "GET" "/");
                     (disk_empty, request "GET" ("/static/" +:+ "app.js"))] !! 2 = Some msg ->
      status msg <> 500.
Proof.
  eexists; eexists; split; [reflexivity |].
  intros msg Hmsg.
  apply (static_check_is_one_off install (at_startup disk_complete) _ _ eq_refl false
           [(disk_complete, request "GET" ("/static/" +:+ "app.js"));
            (disk_empty, request "GET" "/");
            (disk_empty, request "GET" ("/static/" +:+ "app.js"))]
           0 2 disk_complete disk_empty "GET" "app.js" "GET" "app.js"
           {| status := 200; body := Bytes "init();" |} msg);
    [lia | reflexivity | reflexivity | reflexivity
     | reflexivity | reflexivity | discriminate | reflexivity | exact Hmsg].
Defined.

(** X6. Loading and serving fit together: the module once loaded, the disk
    is as it was and the check of the static directory is still to be made;
    in that world a request below [/static/] (its path free of line breaks
    and NUL bytes) never gets the 500, for the directory whose absence would
    raise it is the one [StaticFiles] has just found, and the check is
    passed from then on. *)
Theorem fresh_server_finds_its_static_dir (__file__ : list string)
    (d : gmap (list string) Node) (a : FastAPI) (w' : World)
    (loaded : main.app __file__ (at_startup d) = (Ok a, w'))
    (m rest : string) (lines : no_line_break rest) (nul : no_nul rest) :
  w' = at_startup d /\
  status (fst (call a (request m ("/static/" +:+ rest)) w')) <> 500 /\
  config_checked (snd (call a (request m ("/static/" +:+ rest)) w')) = true.
Proof.
  pose proof (app_loaded _ _ _ _ loaded) as (Hdir & Hw & _). subst w'.
  assert (Hok : status (fst (call a (request m ("/static/" +:+ rest)) (at_startup d))) <> 500).
  { apply (checked_static_is_not_500 _ _ _ _ _ _ _ loaded); [exact nul | now left]. }
  split; [reflexivity | split; [exact Hok|]].
  now apply (static_answer_sets_checked _ _ _ _ _ _ _ loaded).
Qed.

Lemma fresh_server_finds_its_static_dir_witness :
  exists a w',
    main.app install (at_startup disk_without_index) = (Ok a, w') /\
    status (fst (call a (request "POST" ("/static/" +:+ "x")) w')) <> 500.
Proof.
  eexists; eexists; split; [reflexivity |].
  apply (fresh_server_finds_its_static_dir install disk_without_index _ _ eq_refl);
    reflexivity.
Defined.

(** ** Paths that resolve alike *)

(** [StaticFiles] looks at a scope through its method and the place its
    path resolves to, and through nothing else. *)
Lemma StaticFiles_call_ext (self : StaticFiles) (s1 s2 : Scope) (w : World) :
  method s1 = method s2 ->
  existsb (contains NUL) (get_path s1) = false ->
  existsb (contains NUL) (get_path s2) = false ->
  realpath (directory self ++ split_slash (get_route_path s1))
  = realpath (directory self ++ split_slash (get_route_path s2)) ->
  StaticFiles_call self s1 w = StaticFiles_call self s2 w.
Proof.
  intros Hm Hn1 Hn2 Hp.
  unfold StaticFiles_call, get_response, lookup_path. rewrite Hn1, Hn2.
  unfold get_path, send, FileResponse_call.
  rewrite !realpath_normpath, Hm, Hp. reflexivity.
Qed.

(** X7. Below [/static/] a path counts for the place it resolves to: two
    paths free of line breaks and NUL bytes that resolve to the same place
    in the file system (empty parts, [.] and [..] worked out) get, for the
    same method and in the same world, the same answer and leave the same
    world. *)
Theorem static_paths_resolving_alike (__file__ : list string) (w0 w1 : World) (a : FastAPI)
    (loaded : main.app __file__ w0 = (Ok a, w1)) (m rest1 rest2 : string) (w : World)
    (lines1 : no_line_break rest1) (lines2 : no_line_break rest2)
    (nul1 : no_nul rest1) (nul2 : no_nul rest2)
    (alike : realpath (main.static_dir __file__ ++ split_slash rest1)
             = realpath (main.static_dir __file__ ++ split_slash rest2)) :
  call a (request m ("/static/" +:+ rest1)) w = call a (request m ("/static/" +:+ rest2)) w.
Proof.
  rewrite !(call_static _ _ _ _ _ _ _ loaded).
  rewrite (StaticFiles_call_ext _
             {| method := m; path := "/static/" +:+ rest1; root_path := "/static" |}
             {| method := m; path := "/static/" +:+ rest2; root_path := "/static" |});
    [reflexivity | reflexivity | now apply static_path_no_nul | now apply static_path_no_nul |].
  cbn [directory].
  change (get_route_path {| method := m; path := "/static/" +:+ rest1; root_path := "/static" |})
    with (String "/" rest1).
  change (get_route_path {| method := m; path := "/static/" +:+ rest2; root_path := "/static" |})
    with (String "/" rest2).
  change (split_slash (String "/" rest1)) with ("" :: split_slash rest1).
  change (split_slash (String "/" rest2)) with ("" :: split_slash rest2).
  unfold realpath, normpath in alike |- *.
  rewrite !fold_left_app in alike |- *. exact alike.
Qed.

Lemma static_paths_resolving_alike_witness :
  exists a w1,
    main.app install (at_startup disk_complete) = (Ok a, w1) /\
    call a (request "GET" ("/static/" +:+ "/css/.././app.js")) w1
    = call a (request "GET" ("/static/" +:+ "app.js")) w1.
Proof.
  eexists; eexists; split; [reflexivity |].
  apply (static_paths_resolving_alike install (at_startup disk_complete) _ _ eq_refl);
    reflexivity.
Defined.

(** ** Requests that do not touch the disk *)

(** X8. Outside [/static/] and [/] the answer is a matter of method and path
    alone: whatever the disk holds and whatever state the application is in,
    a request whose path, free of line breaks, is neither [/] nor below
    [/static/] gets the same answer.  The JSON endpoints, the documentation
    pages and the answers to unknown paths do not depend on the files being
    served. *)
Theorem answers_outside_static_and_root_ignore_the_world (__file__ : list string)
    (w0 w1 : World) (a : FastAPI) (loaded : main.app __file__ w0 = (Ok a, w1))
    (m p : string) (w w' : World)
    (lines : no_line_break p)
    (not_static : removeprefix "/static/" p = None) (not_root : p <> "/") :
  fst (call a (request m p) w) = fst (call a (request m p) w').
Proof.
  pose proof (routes_loaded _ _ _ _ loaded) as Htable.
  destruct (table_view __file__ m p) as [Hmiss | (pre & r & post & E & Hpre & Hpost & Hr)].
  { rewrite <- Htable in Hmiss.
    now rewrite !(call_unmatched _ _ _ _ _ _ _ loaded Hmiss). }
  assert (Hin : In r (table __file__)) by (rewrite E; apply in_elt).
  cbn [table In] in Hin.
  destruct Hin as [<-|[<-|[<-|[<-|[<-|[<-|[<-|[<-|[]]]]]]]]].
  1-6: pose proof Hr as Hp; apply hit_route in Hp; subst p;
       rewrite !(call_route _ _ _ _ _ _ _ _ _ _ _ loaded E Hpre Hpost);
       destruct (allows _ m); reflexivity.
  - apply hit_mount in Hr as [rest ->].
    assert (Hsome : removeprefix "/static/" ("/static/" +:+ rest) = Some rest) by reflexivity.
    congruence.
  - apply hit_route in Hr. contradiction.
Qed.

Lemma answers_outside_static_and_root_ignore_the_world_witness :
  exists a w1,
    main.app install (at_startup disk_complete) = (Ok a, w1) /\
    fst (call a (request "GET" "/api/info") w1)
    = fst (call a (request "GET" "/api/info") (at_startup disk_empty)).
Proof.
  eexists; eexists; split; [reflexivity |].
  apply (answers_outside_static_and_root_ignore_the_world install (at_startup disk_complete)
           _ _ eq_refl); [reflexivity | reflexivity | discriminate].
Defined.
